(** * The CC2500 link driver of STM8TX (lib/cc2500.c)

    A shallow embedding of the hopping-radio protocol engine: the CRC-16
    engine, the hopping-table generator, the bind and normal frame
    builders, and the timer-driven sequencer that chains
    [send_bind_packet], [send_normal_packet] and [start_receive].

    Machine integers are [Z] with the C wrap-around written out ([u8],
    [u16]); C arrays are lists read with [!!] and written with [<[i:=x]>];
    the file-scope statics of the driver are the fields of [driver].
    The ADC sampler of adc.c, which feeds the channel values, is embedded
    the same way. *)

From Stdlib Require Import ZArith List Lia Bool Permutation.
From stdpp Require Import base option list relations.
Import ListNotations.
Local Open Scope Z_scope.

(** ** Machine integers *)

(** Conversion to [uint8_t] and [uint16_t]. *)
Definition u8 (z : Z) : Z := z mod 256.
Definition u16 (z : Z) : Z := z mod 65536.

(** ** Constants of the register map that the modelled code uses *)

Definition CC2500_02_IOCFG0 : Z := 0x02.
Definition CC2500_03_FIFOTHR : Z := 0x03.
Definition CC2500_06_PKTLEN : Z := 0x06.
Definition CC2500_07_PKTCTRL1 : Z := 0x07.
Definition CC2500_08_PKTCTRL0 : Z := 0x08.
Definition CC2500_09_ADDR : Z := 0x09.
Definition CC2500_0A_CHANNR : Z := 0x0A.
Definition CC2500_0B_FSCTRL1 : Z := 0x0B.
Definition CC2500_0C_FSCTRL0 : Z := 0x0C.
Definition CC2500_0D_FREQ2 : Z := 0x0D.
Definition CC2500_0E_FREQ1 : Z := 0x0E.
Definition CC2500_0F_FREQ0 : Z := 0x0F.
Definition CC2500_10_MDMCFG4 : Z := 0x10.
Definition CC2500_11_MDMCFG3 : Z := 0x11.
Definition CC2500_12_MDMCFG2 : Z := 0x12.
Definition CC2500_13_MDMCFG1 : Z := 0x13.
Definition CC2500_14_MDMCFG0 : Z := 0x14.
Definition CC2500_15_DEVIATN : Z := 0x15.
Definition CC2500_17_MCSM1 : Z := 0x17.
Definition CC2500_18_MCSM0 : Z := 0x18.
Definition CC2500_19_FOCCFG : Z := 0x19.
Definition CC2500_1A_BSCFG : Z := 0x1A.
Definition CC2500_1B_AGCCTRL2 : Z := 0x1B.
Definition CC2500_1C_AGCCTRL1 : Z := 0x1C.
Definition CC2500_1D_AGCCTRL0 : Z := 0x1D.
Definition CC2500_21_FREND1 : Z := 0x21.
Definition CC2500_22_FREND0 : Z := 0x22.
Definition CC2500_23_FSCAL3 : Z := 0x23.
Definition CC2500_24_FSCAL2 : Z := 0x24.
Definition CC2500_25_FSCAL1 : Z := 0x25.
Definition CC2500_26_FSCAL0 : Z := 0x26.
Definition CC2500_2C_TEST2 : Z := 0x2C.
Definition CC2500_2D_TEST1 : Z := 0x2D.
Definition CC2500_2E_TEST0 : Z := 0x2E.
Definition CC2500_30_PARTNUM : Z := 0x30.
Definition CC2500_31_VERSION : Z := 0x31.
Definition CC2500_3E_PATABLE : Z := 0x3E.
Definition CC2500_3F_TXFIFO : Z := 0x3F.

Definition CC2500_WRITE_SINGLE : Z := 0x00.
Definition CC2500_WRITE_BURST : Z := 0x40.
Definition CC2500_READ_SINGLE : Z := 0x80.
Definition CC2500_READ_BURST : Z := 0xC0.

Definition CC2500_SRES : Z := 0x30.
Definition CC2500_SCAL : Z := 0x33.
Definition CC2500_SRX : Z := 0x34.
Definition CC2500_STX : Z := 0x35.
Definition CC2500_SIDLE : Z := 0x36.
Definition CC2500_SFRX : Z := 0x3A.
Definition CC2500_SFTX : Z := 0x3B.

Definition NUM_CHANNELS : nat := 47.

(** ** CRC-16 engine *)

Definition CRCTable : list Z := [
    0x0000; 0x1189; 0x2312; 0x329b; 0x4624; 0x57ad; 0x6536; 0x74bf;
    0x8c48; 0x9dc1; 0xaf5a; 0xbed3; 0xca6c; 0xdbe5; 0xe97e; 0xf8f7;
    0x1081; 0x0108; 0x3393; 0x221a; 0x56a5; 0x472c; 0x75b7; 0x643e;
    0x9cc9; 0x8d40; 0xbfdb; 0xae52; 0xdaed; 0xcb64; 0xf9ff; 0xe876;
    0x2102; 0x308b; 0x0210; 0x1399; 0x6726; 0x76af; 0x4434; 0x55bd;
    0xad4a; 0xbcc3; 0x8e58; 0x9fd1; 0xeb6e; 0xfae7; 0xc87c; 0xd9f5;
    0x3183; 0x200a; 0x1291; 0x0318; 0x77a7; 0x662e; 0x54b5; 0x453c;
    0xbdcb; 0xac42; 0x9ed9; 0x8f50; 0xfbef; 0xea66; 0xd8fd; 0xc974;
    0x4204; 0x538d; 0x6116; 0x709f; 0x0420; 0x15a9; 0x2732; 0x36bb;
    0xce4c; 0xdfc5; 0xed5e; 0xfcd7; 0x8868; 0x99e1; 0xab7a; 0xbaf3;
    0x5285; 0x430c; 0x7197; 0x601e; 0x14a1; 0x0528; 0x37b3; 0x263a;
    0xdecd; 0xcf44; 0xfddf; 0xec56; 0x98e9; 0x8960; 0xbbfb; 0xaa72;
    0x6306; 0x728f; 0x4014; 0x519d; 0x2522; 0x34ab; 0x0630; 0x17b9;
    0xef4e; 0xfec7; 0xcc5c; 0xddd5; 0xa96a; 0xb8e3; 0x8a78; 0x9bf1;
    0x7387; 0x620e; 0x5095; 0x411c; 0x35a3; 0x242a; 0x16b1; 0x0738;
    0xffcf; 0xee46; 0xdcdd; 0xcd54; 0xb9eb; 0xa862; 0x9af9; 0x8b70;
    0x8408; 0x9581; 0xa71a; 0xb693; 0xc22c; 0xd3a5; 0xe13e; 0xf0b7;
    0x0840; 0x19c9; 0x2b52; 0x3adb; 0x4e64; 0x5fed; 0x6d76; 0x7cff;
    0x9489; 0x8500; 0xb79b; 0xa612; 0xd2ad; 0xc324; 0xf1bf; 0xe036;
    0x18c1; 0x0948; 0x3bd3; 0x2a5a; 0x5ee5; 0x4f6c; 0x7df7; 0x6c7e;
    0xa50a; 0xb483; 0x8618; 0x9791; 0xe32e; 0xf2a7; 0xc03c; 0xd1b5;
    0x2942; 0x38cb; 0x0a50; 0x1bd9; 0x6f66; 0x7eef; 0x4c74; 0x5dfd;
    0xb58b; 0xa402; 0x9699; 0x8710; 0xf3af; 0xe226; 0xd0bd; 0xc134;
    0x39c3; 0x284a; 0x1ad1; 0x0b58; 0x7fe7; 0x6e6e; 0x5cf5; 0x4d7c;
    0xc60c; 0xd785; 0xe51e; 0xf497; 0x8028; 0x91a1; 0xa33a; 0xb2b3;
    0x4a44; 0x5bcd; 0x6956; 0x78df; 0x0c60; 0x1de9; 0x2f72; 0x3efb;
    0xd68d; 0xc704; 0xf59f; 0xe416; 0x90a9; 0x8120; 0xb3bb; 0xa232;
    0x5ac5; 0x4b4c; 0x79d7; 0x685e; 0x1ce1; 0x0d68; 0x3ff3; 0x2e7a;
    0xe70e; 0xf687; 0xc41c; 0xd595; 0xa12a; 0xb0a3; 0x8238; 0x93b1;
    0x6b46; 0x7acf; 0x4854; 0x59dd; 0x2d62; 0x3ceb; 0x0e70; 0x1ff9;
    0xf78f; 0xe606; 0xd49d; 0xc514; 0xb1ab; 0xa022; 0x92b9; 0x8330;
    0x7bc7; 0x6a4e; 0x58d5; 0x495c; 0x3de3; 0x2c6a; 0x1ef1; 0x0f78
  ].

(** [CRCTable[i]]; the index is always masked to eight bits by the caller. *)
Definition CRCTable_at (i : Z) : Z := default 0 (CRCTable !! Z.to_nat i).

(** One iteration of the loop of [calc_crc]:
    [crc = (crc<<8) ^ CRCTable[((uint8_t)(crc>>8) ^ *data++) & 0xFF]]. *)
Definition calc_crc_step (crc data : Z) : Z :=
  u16 (Z.lxor (Z.shiftl crc 8)
              (CRCTable_at (Z.land (Z.lxor (u8 (Z.shiftr crc 8)) data) 0xFF))).

(** [calc_crc(data, len)]: [data] is the memory from the pointer on. *)
Definition calc_crc (data : list Z) (len : nat) : Z :=
  fold_left calc_crc_step (take len data) 0.

(** The reference the table is compared with: the bitwise CRC-16 with the
    reflected CCITT polynomial, 0x1021 reflected being 0x8408, run over the
    eight bits of one byte from an initial value of 0. *)
Definition crc16_reflected_bit (c : Z) : Z :=
  if Z.testbit c 0 then Z.lxor (Z.shiftr c 1) 0x8408 else Z.shiftr c 1.

Definition crc16_reflected_byte (i : Z) : Z :=
  Nat.iter 8 crc16_reflected_bit (Z.lxor 0 i).

Definition crc16_reflected_table : list Z :=
  (fun i : nat => crc16_reflected_byte (Z.of_nat i)) <$> seq 0 256.

(** ** Driver state: the file-scope statics of cc2500.c *)

Record driver := mkDriver {
  calData : list (Z * Z * Z);      (* uint8_t calData[NUM_CHANNELS][3] *)
  bindTxId : Z * Z;                (* uint8_t bindTxId[2] *)
  bindHopData : list Z;            (* uint8_t bindHopData[NUM_CHANNELS] *)
  channr : Z;                      (* uint8_t *)
  chanskip : Z;                    (* uint8_t *)
  rxnum : Z;                       (* uint8_t *)
  bindcount : Z;                   (* uint16_t *)
  idx : Z                          (* static uint8_t idx of send_bind_packet *)
}.

Definition set_calData (v : list (Z * Z * Z)) (d : driver) : driver :=
  mkDriver v (bindTxId d) (bindHopData d) (channr d) (chanskip d) (rxnum d)
           (bindcount d) (idx d).
Definition set_bindTxId (v : Z * Z) (d : driver) : driver :=
  mkDriver (calData d) v (bindHopData d) (channr d) (chanskip d) (rxnum d)
           (bindcount d) (idx d).
Definition set_bindHopData (v : list Z) (d : driver) : driver :=
  mkDriver (calData d) (bindTxId d) v (channr d) (chanskip d) (rxnum d)
           (bindcount d) (idx d).
Definition set_channr (v : Z) (d : driver) : driver :=
  mkDriver (calData d) (bindTxId d) (bindHopData d) v (chanskip d) (rxnum d)
           (bindcount d) (idx d).
Definition set_chanskip (v : Z) (d : driver) : driver :=
  mkDriver (calData d) (bindTxId d) (bindHopData d) (channr d) v (rxnum d)
           (bindcount d) (idx d).
Definition set_bindcount (v : Z) (d : driver) : driver :=
  mkDriver (calData d) (bindTxId d) (bindHopData d) (channr d) (chanskip d)
           (rxnum d) v (idx d).
Definition set_idx (v : Z) (d : driver) : driver :=
  mkDriver (calData d) (bindTxId d) (bindHopData d) (channr d) (chanskip d)
           (rxnum d) (bindcount d) v.

(** Statics are zero-initialised at power-on. *)
Definition power_on_driver : driver :=
  mkDriver (replicate NUM_CHANNELS (0, 0, 0)) (0, 0)
           (replicate NUM_CHANNELS 0) 0 0 0 0 0.

(** ** Hopping-table generator *)

(** The "Filter bad tables" block of [setup_hopping_table], on the
    [uint8_t channel_spacing]. *)
Definition filter_spacing (channel_spacing : Z) : Z :=
  let channel_spacing :=
    if channel_spacing <? 0x02 then u8 (channel_spacing + 0x02)
    else channel_spacing in
  let channel_spacing :=
    if channel_spacing >? 0xE9 then u8 (channel_spacing - 0xE7)
    else channel_spacing in
  if channel_spacing mod Z.of_nat NUM_CHANNELS =? 0 then u8 (channel_spacing + 1)
  else channel_spacing.

(** The three values the generator steps over. *)
Definition reserved_channel (val : Z) : bool :=
  (val =? 0x00) || (val =? 0x5A) || (val =? 0xDC).

(** Body of the [for (i=1; i<NUM_CHANNELS; i++)] loop; the loop state is
    the running [channel] and the table. *)
Definition hop_loop_body (channel_spacing : Z) (st : Z * list Z) (i : nat)
  : Z * list Z :=
  let channel := u8 ((st.1 + channel_spacing) mod 0xEB) in
  let val := channel in
  let val := if reserved_channel val then u8 (val + 1) else val in
  (channel, <[i := val]> st.2).

Definition hopping_table (id : Z * Z) (hop : list Z) : list Z :=
  let channel := u8 (Z.land id.1 0x07) in
  let channel_spacing := filter_spacing id.2 in
  let hop := <[0%nat := channel]> hop in
  (fold_left (hop_loop_body channel_spacing) (seq 1 (NUM_CHANNELS - 1))
             (channel, hop)).2.

Definition setup_hopping_table (d : driver) : driver :=
  set_bindHopData (hopping_table (bindTxId d) (bindHopData d)) d.

(** What the specification asks of a hopping table: no entry is one of
    the reserved channels and every entry is below 0xEB. *)
Definition clean_table (table : list Z) : bool :=
  forallb (fun val => negb (reserved_channel val) && (val <? 0xEB)) table.

(** ** Packet codec *)

(** The three bytes the loop of [send_normal_packet] stores for one pair of
    channel values. *)
Definition pack_pair (chan_0 chan_1 : Z) : Z * Z * Z :=
  (u8 (Z.land chan_0 0xFF),
   u8 (Z.lor (Z.land (Z.shiftr chan_0 8) 0x0F) (Z.shiftl chan_1 4)),
   u8 (Z.shiftr chan_1 4)).

(** The inverse of the documented layout: byte0 holds the low 8 bits of
    [a]; the low nibble of byte1 the high 4 bits of [a], its high nibble
    the low 4 bits of [b]; byte2 the high 8 bits of [b]. *)
Definition unpack_pair (bytes : Z * Z * Z) : Z * Z :=
  let '(b0, b1, b2) := bytes in
  (Z.lor b0 (Z.shiftl (Z.land b1 0x0F) 8),
   Z.lor (Z.shiftr b1 4) (Z.shiftl b2 4)).

(** Stores the trailer: [packet[28] = lcrc>>8; packet[29] = lcrc]. *)
Definition store_crc (packet : list Z) : list Z :=
  let lcrc := calc_crc (drop 3 packet) (30 - 5) in
  <[29%nat := u8 lcrc]> (<[28%nat := u8 (Z.shiftr lcrc 8)]> packet).

Section Codec.
(** [channel_value] is declared in channels.h; its definition is not part
    of the driver. It returns a [uint16_t]. *)
Variable channel_value : Z -> Z.

(** Body of [for (i = 0, ofs=9; i <8 ; i+=2, ofs += 3)]; the loop state
    is [ofs] and the packet. *)
Definition pack_loop_body (st : nat * list Z) (i : Z) : nat * list Z :=
  let ofs := st.1 in
  let chan_0 := u16 (channel_value i) in
  let chan_1 := u16 (channel_value (i + 1)) in
  let '(b0, b1, b2) := pack_pair chan_0 chan_1 in
  ((ofs + 3)%nat,
   <[(ofs + 2)%nat := b2]> (<[(ofs + 1)%nat := b1]> (<[ofs := b0]> st.2))).

(** The 30 bytes [send_normal_packet] hands to [send_packet]. *)
Definition normal_packet (d : driver) : list Z :=
  let packet := replicate 30 0 in
  let packet := <[0%nat := u8 (30 - 1)]> packet in
  let packet := <[1%nat := (bindTxId d).1]> packet in
  let packet := <[2%nat := (bindTxId d).2]> packet in
  let packet := <[3%nat := 0x02]> packet in
  let packet :=
    <[4%nat := u8 (Z.lor (Z.shiftl (chanskip d) 6) (channr d))]> packet in
  let packet := <[5%nat := u8 (Z.shiftr (chanskip d) 2)]> packet in
  let packet := <[6%nat := rxnum d]> packet in
  let packet := <[7%nat := 0]> packet in
  let packet := <[8%nat := 0]> packet in
  let packet := (fold_left pack_loop_body [0; 2; 4; 6] (9%nat, packet)).2 in
  store_crc packet.
End Codec.

(** Body of [for (i=0; i<5; i++)] in [send_bind_packet]. *)
Definition bind_hop_body (d : driver) (packet : list Z) (i : Z) : list Z :=
  if idx d + i <? 47
  then <[Z.to_nat (6 + i) := default 0 (bindHopData d !! Z.to_nat (idx d + i))]>
         packet
  else packet.

(** The 30 bytes [send_bind_packet] hands to [send_packet]. *)
Definition bind_packet (d : driver) : list Z :=
  let packet := replicate 30 0 in
  let packet := <[0%nat := u8 (30 - 1)]> packet in
  let packet := <[1%nat := 0x03]> packet in
  let packet := <[2%nat := 0x01]> packet in
  let packet := <[3%nat := (bindTxId d).1]> packet in
  let packet := <[4%nat := (bindTxId d).2]> packet in
  let packet := <[5%nat := idx d]> packet in
  let packet := fold_left (bind_hop_body d) [0; 1; 2; 3; 4] packet in
  let packet := <[11%nat := 0x02]> packet in
  let packet := <[12%nat := 0]> packet in
  store_crc packet.

(** [idx += 5; if (idx >= 50) idx -= 50;] on the [uint8_t idx]. *)
Definition advance_idx (idx : Z) : Z :=
  let idx := u8 (idx + 5) in
  if idx >=? 50 then u8 (idx - 50) else idx.

(** ** The world outside the statics: SPI and GPIO traffic, pending timers *)

Inductive pin := RADIO_PACTL | RADIO_CE | RADIO_INT.
Inductive gpio_mode := GPIO_OUTPUT_PUSHPULL | GPIO_INPUT_FLOAT_IRQ.

Inductive event :=
| EvGpioConfig (p : pin) (m : gpio_mode)
| EvGpioSet (p : pin)
| EvGpioClear (p : pin)
| EvStrobe (address : Z)
| EvWriteReg (reg value : Z)
| EvReadReg (reg value : Z)
| EvWriteFifo (reg : Z) (packet : list Z)
| EvDelay (ms : Z).

(** The functions handed to [timer_call_after_ms]. *)
Inductive callback :=
| cb_send_bind_packet
| cb_send_normal_packet
| cb_start_receive.

Record world := mkWorld {
  drv : driver;                    (* the statics *)
  radio : list event;              (* what was done to the chip, oldest first *)
  timers : list (Z * callback)     (* one-shot callbacks not yet fired *)
}.

Definition power_on : world := mkWorld power_on_driver [] [].

(** A driver function either returns, or indexes an array out of its
    bounds, or never leaves the identity poll of [radio_init_hw]. *)
Inductive outcome (A : Type) :=
| Done (a : A) (w : world)
| Fault
| Stuck.
Arguments Done {A} a w.
Arguments Fault {A}.
Arguments Stuck {A}.

Definition M (A : Type) : Type := world -> outcome A.

#[global] Instance M_ret : MRet M := fun A a w => Done a w.
#[global] Instance M_bind : MBind M := fun A B k m w =>
  match m w with
  | Done a w' => k a w'
  | Fault => Fault
  | Stuck => Stuck
  end.

Definition get_drv : M driver := fun w => Done (drv w) w.
Definition modify_drv (f : driver -> driver) : M unit :=
  fun w => Done tt (mkWorld (f (drv w)) (radio w) (timers w)).
Definition emit (ev : event) : M unit :=
  fun w => Done tt (mkWorld (drv w) (radio w ++ [ev]) (timers w)).
Definition array_read {A} (arr : list A) (i : Z) : M A :=
  fun w => match arr !! Z.to_nat i with Some x => Done x w | None => Fault end.

Fixpoint for_each {A} (l : list A) (body : A -> M unit) : M unit :=
  match l with
  | [] => mret tt
  | x :: l => body x;; for_each l body
  end.

(** Modelled from the spec: timer.h's [timer_call_after_ms] is the
    [schedule_once(delay_ms, callback)] of the scheduling interface: it
    leaves one more callback pending, which fires once. *)
Definition timer_call_after_ms (ms : Z) (cb : callback) : M unit :=
  fun w => Done tt (mkWorld (drv w) (radio w) (timers w ++ [(ms, cb)])).

Definition delay_ms (ms : Z) : M unit := emit (EvDelay ms).
Definition gpio_config (p : pin) (m : gpio_mode) : M unit := emit (EvGpioConfig p m).
Definition gpio_set (p : pin) : M unit := emit (EvGpioSet p).
Definition gpio_clear (p : pin) : M unit := emit (EvGpioClear p).

Definition radio_config : list (Z * Z) := [
  (CC2500_02_IOCFG0,   0x01);
  (CC2500_17_MCSM1,    0x0C);
  (CC2500_18_MCSM0,    0x18);
  (CC2500_06_PKTLEN,   0x1E);
  (CC2500_07_PKTCTRL1, 0x04);
  (CC2500_08_PKTCTRL0, 0x01);
  (CC2500_3E_PATABLE,  0xFF);
  (CC2500_0B_FSCTRL1,  0x0A);
  (CC2500_0C_FSCTRL0,  0x00);
  (CC2500_0D_FREQ2,    0x5C);
  (CC2500_0E_FREQ1,    0x76);
  (CC2500_0F_FREQ0,    0x27);
  (CC2500_10_MDMCFG4,  0x7B);
  (CC2500_11_MDMCFG3,  0x61);
  (CC2500_12_MDMCFG2,  0x13);
  (CC2500_13_MDMCFG1,  0x23);
  (CC2500_14_MDMCFG0,  0x7A);
  (CC2500_15_DEVIATN,  0x51);
  (CC2500_19_FOCCFG,   0x16);
  (CC2500_1A_BSCFG,    0x6C);
  (CC2500_1B_AGCCTRL2, 0x03);
  (CC2500_1C_AGCCTRL1, 0x40);
  (CC2500_1D_AGCCTRL0, 0x91);
  (CC2500_21_FREND1,   0x56);
  (CC2500_22_FREND0,   0x10);
  (CC2500_23_FSCAL3,   0xA9);
  (CC2500_24_FSCAL2,   0x0A);
  (CC2500_25_FSCAL1,   0x00);
  (CC2500_26_FSCAL0,   0x11);
  (CC2500_2C_TEST2,    0x88);
  (CC2500_2D_TEST1,    0x31);
  (CC2500_2E_TEST0,    0x0B);
  (CC2500_03_FIFOTHR,  0x07);
  (CC2500_09_ADDR,     0x00)
  ].

Section Driver.
(** What the chip answers to a register read, given all that was done to
    it so far; and the control-input sampler behind [channel_value]. *)
Variable chip : list event -> Z -> Z.
Variable channel_value : Z -> Z.

Definition cc2500_WriteFifo (dpbuffer : list Z) (len : nat) : M unit :=
  emit (EvWriteFifo (u8 (Z.lor CC2500_3F_TXFIFO CC2500_WRITE_BURST))
                    (take len dpbuffer)).

Definition cc2500_WriteReg (reg value : Z) : M unit :=
  emit (EvWriteReg (u8 (Z.lor reg CC2500_WRITE_SINGLE)) value).

Definition cc2500_ReadReg (reg : Z) : M Z :=
  fun w =>
    let a := u8 (Z.lor reg CC2500_READ_SINGLE) in
    let v := u8 (chip (radio w) a) in
    Done v (mkWorld (drv w) (radio w ++ [EvReadReg a v]) (timers w)).

(** The status byte a strobe returns is dropped at every call site. *)
Definition cc2500_Strobe (address : Z) : M unit := emit (EvStrobe address).

Definition cc2500_Reset : M bool :=
  cc2500_Strobe CC2500_SRES;;
  delay_ms 1;;
  v ← cc2500_ReadReg CC2500_0E_FREQ1;
  mret (v =? 0xC4).

Definition initialiseData (adr : Z) : M unit :=
  cc2500_WriteReg CC2500_0C_FSCTRL0 0;;
  cc2500_WriteReg CC2500_18_MCSM0 0x8;;
  d ← get_drv;
  cc2500_WriteReg CC2500_09_ADDR (if adr =? 0 then (bindTxId d).1 else 0x03);;
  cc2500_WriteReg CC2500_07_PKTCTRL1 0x0D;;
  cc2500_WriteReg CC2500_19_FOCCFG 0x16.

Definition setChannel (channel : Z) : M unit :=
  cc2500_Strobe CC2500_SIDLE;;
  d ← get_drv;
  cal ← array_read (calData d) channel;
  cc2500_WriteReg CC2500_23_FSCAL3 cal.1.1;;
  cc2500_WriteReg CC2500_24_FSCAL2 cal.1.2;;
  cc2500_WriteReg CC2500_25_FSCAL1 cal.2;;
  hop ← array_read (bindHopData d) channel;
  cc2500_WriteReg CC2500_0A_CHANNR hop.

(** The [while] loop at the head of [radio_init_hw]; it has no bound in
    the source, [fuel] is the number of polls looked at. *)
Fixpoint wait_for_radio (fuel : nat) : M unit :=
  match fuel with
  | O => fun _ => Stuck
  | S fuel =>
      partnum ← cc2500_ReadReg (Z.lor CC2500_30_PARTNUM CC2500_READ_BURST);
      if negb (partnum =? 0x80) then delay_ms 200;; wait_for_radio fuel
      else
        version ← cc2500_ReadReg (Z.lor CC2500_31_VERSION CC2500_READ_BURST);
        if negb (version =? 0x03) then delay_ms 200;; wait_for_radio fuel
        else mret tt
  end.

(** Body of the calibration loop of [radio_init_hw]. *)
Definition calibrate_body (i : nat) : M unit :=
  cc2500_Strobe CC2500_SIDLE;;
  d ← get_drv;
  hop ← array_read (bindHopData d) (Z.of_nat i);
  cc2500_WriteReg CC2500_0A_CHANNR hop;;
  cc2500_Strobe CC2500_SCAL;;
  delay_ms 1;;
  c0 ← cc2500_ReadReg CC2500_23_FSCAL3;
  c1 ← cc2500_ReadReg CC2500_24_FSCAL2;
  c2 ← cc2500_ReadReg CC2500_25_FSCAL1;
  modify_drv (fun d => set_calData (<[i := (c0, c1, c2)]> (calData d)) d).

Definition radio_init_hw (fuel : nat) : M unit :=
  wait_for_radio fuel;;
  _ ← cc2500_Reset;
  for_each radio_config (fun rv => cc2500_WriteReg rv.1 rv.2);;
  cc2500_Strobe CC2500_SIDLE;;
  modify_drv (set_bindTxId (15, 20));;
  modify_drv (set_chanskip 1);;
  modify_drv setup_hopping_table;;
  for_each (seq 0 NUM_CHANNELS) calibrate_body;;
  delay_ms 10;;
  cc2500_Strobe CC2500_SIDLE;;
  delay_ms 10;;
  initialiseData 1.

Definition radio_init (fuel : nat) : M unit :=
  gpio_config RADIO_PACTL GPIO_OUTPUT_PUSHPULL;;
  gpio_clear RADIO_PACTL;;
  gpio_config RADIO_PACTL GPIO_OUTPUT_PUSHPULL;;
  gpio_clear RADIO_PACTL;;
  gpio_config RADIO_CE GPIO_OUTPUT_PUSHPULL;;
  gpio_set RADIO_CE;;
  gpio_config RADIO_INT GPIO_INPUT_FLOAT_IRQ;;
  radio_init_hw fuel.

Definition send_packet (len : nat) (packet : list Z) : M unit :=
  gpio_set RADIO_PACTL;;
  cc2500_Strobe CC2500_SFTX;;
  cc2500_WriteFifo packet len;;
  cc2500_Strobe CC2500_STX.

Definition start_receive : M unit :=
  gpio_clear RADIO_PACTL;;
  modify_drv (fun d => set_channr (u8 ((channr d + chanskip d) mod 47)) d);;
  cc2500_Strobe CC2500_SIDLE;;
  d ← get_drv;
  setChannel (channr d);;
  cc2500_Strobe CC2500_SRX;;
  timer_call_after_ms 3 cb_send_normal_packet.

Definition send_normal_packet : M unit :=
  d ← get_drv;
  let packet := normal_packet channel_value d in
  cc2500_Strobe CC2500_SIDLE;;
  cc2500_Strobe CC2500_SFRX;;
  send_packet 30 packet;;
  timer_call_after_ms 6 cb_start_receive.

Definition send_bind_packet : M unit :=
  d ← get_drv;
  let packet := bind_packet d in
  modify_drv (fun d => set_idx (advance_idx (idx d)) d);;
  cc2500_Strobe CC2500_SIDLE;;
  cc2500_WriteReg CC2500_0A_CHANNR 0;;
  send_packet 30 packet;;
  modify_drv (fun d => set_bindcount (u16 (bindcount d + 1)) d);;
  d ← get_drv;
  if bindcount d >? 500
  then timer_call_after_ms 9 cb_send_normal_packet
  else timer_call_after_ms 9 cb_send_bind_packet.

Definition radio_start_send (use_dsm2 : bool) : M unit :=
  setChannel 0;;
  timer_call_after_ms 2 cb_send_bind_packet.

(** ** The sequencer *)

Definition callback_body (cb : callback) : M unit :=
  match cb with
  | cb_send_bind_packet => send_bind_packet
  | cb_send_normal_packet => send_normal_packet
  | cb_start_receive => start_receive
  end.

(** One step: a pending callback leaves the timer queue and runs. *)
Inductive step : world -> world -> Prop :=
| step_fire w pre ms cb post w' :
    timers w = pre ++ (ms, cb) :: post ->
    callback_body cb (mkWorld (drv w) (radio w) (pre ++ post)) = Done tt w' ->
    step w w'.

(** The same, as a function that fires the oldest pending callback. *)
Definition tick (w : world) : option world :=
  match timers w with
  | [] => None
  | (ms, cb) :: rest =>
      match callback_body cb (mkWorld (drv w) (radio w) rest) with
      | Done _ w' => Some w'
      | _ => None
      end
  end.

Fixpoint run (n : nat) (w : world) : option world :=
  match n with
  | O => Some w
  | S n => match tick w with Some w' => run n w' | None => None end
  end.

(** Modelled from the spec: the firmware's main, which calls the driver, is
    not part of it. Bring-up runs calibration synchronously ([radio_init])
    and then enters bind advertising ([radio_start_send]). *)
Definition boot (fuel : nat) (use_dsm2 : bool) : M unit :=
  radio_init fuel;;
  radio_start_send use_dsm2.

(** The frames written to the TX FIFO, oldest first. *)
Definition emitted_frames (tr : list event) : list (list Z) :=
  omap (fun ev => match ev with EvWriteFifo _ p => Some p | _ => None end) tr.

(** The frames a callback writes to the TX FIFO. *)
Definition frames_of (cb : callback) (d : driver) : list (list Z) :=
  match cb with
  | cb_send_bind_packet => [bind_packet d]
  | cb_send_normal_packet => [normal_packet channel_value d]
  | cb_start_receive => []
  end.

(** The hop index in use in transmit/receive cycle [c] (cycles count
    from 0; cycle [c] starts 501 + 2c steps after bring-up). *)
Definition hop_of_cycle (w0 : world) (c : nat) : option Z :=
  (fun w => channr (drv w)) <$> run (501 + 2 * c) w0.

End Driver.

(** ** Transmit power *)

(** The [const uint8_t patable[8]] of [cc2500_SetPower]. *)
Definition patable : list Z :=
  [0xC5; 0x97; 0x6E; 0x7F; 0xA9; 0xBB; 0xFE; 0xFF].

(** [cc2500_SetPower(power)], on the [uint8_t power]. *)
Definition cc2500_SetPower (power : Z) : M unit :=
  let power := if power >? 7 then 7 else power in
  v ← array_read patable power;
  cc2500_WriteReg CC2500_3E_PATABLE v.

(** ** The ADC sampler (adc.c) *)

Definition NUM_CHANS : Z := 4.

(** The statics of adc.c and the channel-select register [ADC_CSR]. *)
Record adc := mkAdc {
  chan : Z;                        (* static uint8_t chan *)
  take_next : bool;                (* static bool take_next *)
  values : list Z;                 (* static uint16_t values[NUM_CHANS] *)
  ADC_CSR : Z                      (* the last value written to ADC_CSR *)
}.

(** The statics are zero-initialised. *)
Definition adc_power_on : adc := mkAdc 0 false (replicate 4 0) 0.

(** [ADC_CSR = 0x23] of [adc_init]; the other registers it programs are
    not read back by the sampler. *)
Definition adc_init (s : adc) : adc :=
  mkAdc (chan s) (take_next s) (values s) 0x23.

(** The sample [v = ADC_DRL; v |= ADC_DRH << 8] as a [uint16_t]. *)
Definition adc_sample (drl drh : Z) : Z :=
  u16 (Z.lor (u8 drl) (Z.shiftl (u8 drh) 8)).

(** [adc_irq], with the data registers read as [drl] and [drh]; [None] is
    a store outside [values]. *)
Definition adc_irq (drl drh : Z) (s : adc) : option adc :=
  let stored :=
    if take_next s then
      if decide (Z.to_nat (chan s) < length (values s))%nat
      then Some (<[Z.to_nat (chan s) := adc_sample drl drh]> (values s),
                 u8 (Z.land (chan s + 1) (NUM_CHANS - 1)))
      else None
    else Some (values s, chan s) in
  match stored with
  | Some (values', chan') =>
      Some (mkAdc chan' (negb (take_next s)) values' (u8 (Z.lor 0x20 chan')))
  | None => None
  end.

(** [adc_value(chan)]; [None] is a read outside [values]. *)
Definition adc_value (s : adc) (chan : Z) : option Z :=
  values s !! Z.to_nat chan.

(** ** Vocabulary of the properties *)

(** A frame is well-formed when it has 30 bytes and bytes 28 and 29 are
    the high and the low byte of [calc_crc] over bytes 3..27. *)
Definition frame_ok (p : list Z) : Prop :=
  length p = 30%nat /\
  exists hi lo,
    p !! 28%nat = Some hi /\ p !! 29%nat = Some lo /\
    0 <= hi < 256 /\ 0 <= lo < 256 /\
    hi * 256 + lo = calc_crc (take 25 (drop 3 p)) 25.

(** The world a driver function leaves behind ([w] itself if it does not
    return). *)
Definition after (m : M unit) (w : world) : world :=
  match m w with Done _ w' => w' | _ => w end.

(** A driver function is quiet when it leaves the statics and the timer
    queue as they were: it only talks to the chip. *)
Definition quiet {A} (m : M A) : Prop :=
  forall w a w', m w = Done a w' -> drv w' = drv w /\ timers w' = timers w.

(** A driver function is total when it returns from every world. *)
Definition total {A} (m : M A) : Prop :=
  forall w, exists a w', m w = Done a w'.

(** The chip answers the identity poll of [radio_init_hw] with the part
    number and version of a CC2500. *)
Definition identifies (chip : list event -> Z -> Z) : Prop :=
  forall tr, u8 (chip tr 0xF0) = 0x80 /\ u8 (chip tr 0xF1) = 0x03.

(** The statics right after [setup_hopping_table] in [radio_init_hw]. *)
Definition configured_driver : driver :=
  setup_hopping_table
    (set_chanskip 1 (set_bindTxId (15, 20) power_on_driver)).

(** What bring-up leaves behind: the identity (15, 20), a skip of 1, both
    tables at 47 entries, hop index, bind counter and cursor at 0, and
    the first bind frame pending. *)
Definition booted (w : world) : Prop :=
  (exists cal, drv w = set_calData cal configured_driver /\
               length cal = NUM_CHANNELS) /\
  timers w = [(2, cb_send_bind_packet)].

(** The callback pending after [n] steps: bind frames for the first 501
    steps, then transmit and receive window in turn. *)
Definition pending_at (n : nat) : callback :=
  if (n <=? 500)%nat then cb_send_bind_packet
  else if Nat.even (n - 501) then cb_send_normal_packet
       else cb_start_receive.

(** The session after [n] steps. *)
Definition session_at (n : nat) (w : world) : Prop :=
  length (calData (drv w)) = NUM_CHANNELS /\
  length (bindHopData (drv w)) = NUM_CHANNELS /\
  chanskip (drv w) = 1 /\
  bindcount (drv w) = Z.of_nat (n `min` 501) /\
  channr (drv w) = Z.of_nat ((n - 501) / 2) mod 47 /\
  exists ms, timers w = [(ms, pending_at n)].

(** *** Concrete inputs the properties are exercised on *)

(** The control inputs of the packing example: channel 0 reads 0xABC,
    channel 1 reads 0x123, the others 0. *)
Definition example_inputs (i : Z) : Z :=
  if i =? 0 then 0xABC else if i =? 1 then 0x123 else 0.

(** A chip that identifies itself as a CC2500 (part number 0x80, version
    0x03, read in burst mode) and reads 0 everywhere else. *)
Definition ready_chip (tr : list event) (a : Z) : Z :=
  if a =? 0xF0 then 0x80 else if a =? 0xF1 then 0x03 else 0.

(** The world bring-up leaves with that chip, and the world [n] steps of
    the sequencer later. *)
Definition booted_world : world := after (boot ready_chip 1 false) power_on.

Definition world_after (n : nat) : world :=
  default power_on (run example_inputs n booted_world).

(** *** Checksum errors, the walk of the generator, the chip traffic *)

(** XOR of two messages, byte by byte. *)
Definition xor_bytes (a b : list Z) : list Z := zip_with Z.lxor a b.

(** [k] zero bytes after the state [c]. *)
Definition zero_run (k : nat) (c : Z) : Z :=
  Nat.iter k (fun z => calc_crc_step z 0) c.

(** The checksum state a lone byte [e] leaves stays away from 0 over the
    next 24 zero bytes. *)
Definition byte_seen (e : Z) : bool :=
  forallb (fun k => negb (zero_run k (calc_crc_step 0 e) =? 0)) (seq 0 25).

(** The channel the walk of [setup_hopping_table] stands on at slot [i],
    before the reserved channels are stepped over. *)
Definition walk_channel (id : Z * Z) (i : nat) : Z :=
  (Z.land id.1 0x07 + Z.of_nat i * filter_spacing id.2) mod 0xEB.

(** The same walk from a seed [c0] with a spacing [sp]. *)
Definition walk_from (c0 sp : Z) (i : nat) : Z :=
  (c0 + Z.of_nat i * sp) mod 0xEB.

(** What the loop stores for a channel of the walk. *)
Definition stored_channel (val : Z) : Z :=
  if reserved_channel val then val + 1 else val.

(** No multiple of a normalised spacing by 1..46 is a multiple of 0xEB. *)
Definition spacing_spreads (s : Z) : bool :=
  forallb (fun k => negb ((Z.of_nat k * filter_spacing s) mod 0xEB =? 0))
          (seq 1 46).

(** The interrupts of a run, oldest first, each with its data registers. *)
Fixpoint adc_irqs (ins : list (Z * Z)) (s : adc) : option adc :=
  match ins with
  | [] => Some s
  | (drl, drh) :: ins =>
      match adc_irq drl drh s with
      | Some s' => adc_irqs ins s'
      | None => None
      end
  end.

(** What the sampler keeps: four values, a channel below 4. *)
Definition adc_ok (s : adc) : Prop :=
  length (values s) = 4%nat /\ 0 <= chan s < 4.

(** The three bytes of a normal frame that hold the channel pair [k]. *)
Definition channel_bytes (packet : list Z) (k : nat) : option (Z * Z * Z) :=
  match take 3 (drop (9 + 3 * k) packet) with
  | [b0; b1; b2] => Some (b0, b1, b2)
  | _ => None
  end.

(** The value a write to the channel register carries. *)
Definition channr_write (ev : event) : option Z :=
  match ev with
  | EvWriteReg reg v => if reg =? CC2500_0A_CHANNR then Some v else None
  | _ => None
  end.

(** The writes to the channel register, oldest first, and the channel the
    chip is tuned to: the last of them. *)
Definition channr_writes (tr : list event) : list Z := omap channr_write tr.

Definition tuned (tr : list event) : option Z := last (channr_writes tr).

(** The delay of the callback pending after [n] steps. *)
Definition delay_at (n : nat) : Z :=
  if (n =? 0)%nat then 2
  else if (n <=? 501)%nat then 9
       else if Nat.even (n - 501) then 3 else 6.

(** The channel the chip is tuned to after [n] steps, for a session with
    the statics [d]. *)
Definition tuned_at (n : nat) (d : driver) : option Z :=
  if (n =? 0)%nat then bindHopData d !! 0%nat
  else if (n <=? 502)%nat then Some 0
       else bindHopData d !! Z.to_nat (channr d).

(** A view of the chip traffic that sees nothing but writes to the channel
    register and to the TX FIFO. *)
Definition hears_air_only {B} (f : event -> option B) : Prop :=
  forall ev, f ev <> None ->
    (exists v, ev = EvWriteReg CC2500_0A_CHANNR v) \/
    (exists r p, ev = EvWriteFifo r p).

(** A driver function is silent for a view when the view of the traffic
    is the same before and after it. *)
Definition silent {A B} (f : event -> option B) (m : M A) : Prop :=
  forall w a w', m w = Done a w' -> omap f (radio w') = omap f (radio w).

(** The frame a FIFO write carries. *)
Definition fifo_frame (ev : event) : option (list Z) :=
  match ev with EvWriteFifo _ p => Some p | _ => None end.

(** The chip never answers the identity poll of [radio_init_hw]. *)
Definition never_identifies (chip : list event -> Z -> Z) : Prop :=
  (forall tr, u8 (chip tr 0xF0) <> 0x80) \/
  (forall tr, u8 (chip tr 0xF1) <> 0x03).

(** * Properties *)

(** ** Arithmetic helpers *)

Lemma u8_range z : 0 <= u8 z < 256.
Proof. unfold u8. apply Z.mod_pos_bound. lia. Qed.

Lemma u16_range z : 0 <= u16 z < 65536.
Proof. unfold u16. apply Z.mod_pos_bound. lia. Qed.

Lemma u8_small z : 0 <= z < 256 -> u8 z = z.
Proof. unfold u8. intros. apply Z.mod_small. lia. Qed.

Lemma u16_small z : 0 <= z < 65536 -> u16 z = z.
Proof. unfold u16. intros. apply Z.mod_small. lia. Qed.

(** ** CRC table *)

(** C6. The driver's 256-entry table is, entry for entry, the table of the
    bitwise CRC-16 with the reflected polynomial 0x8408: entry [i] is the
    result of running byte [i] through eight bit steps from 0. *)
Theorem CRCTable_is_reflected_ccitt : CRCTable = crc16_reflected_table.
Proof. vm_compute. reflexivity. Qed.

(** ** Spacing normalisation *)

Lemma filter_spacing_bounds (spacing : Z) :
  0 <= spacing < 256 ->
  2 <= filter_spacing spacing <= 0xE9 /\
  filter_spacing spacing mod 47 <> 0.
Proof.
  intros Hs. unfold filter_spacing, u8, NUM_CHANNELS.
  change (Z.of_nat 47) with 47.
  repeat match goal with
         | |- context [?a <? ?b] => destruct (Z.ltb_spec a b)
         | |- context [?a >? ?b] =>
             rewrite (Z.gtb_ltb a b); destruct (Z.ltb_spec b a)
         | |- context [?a =? ?b] => destruct (Z.eqb_spec a b)
         end;
    Z.div_mod_to_equations; lia.
Qed.

(** C5. Whatever byte the spacing starts as (0, 1, 0xEA..0xFF and the
    multiples of 47 included), the spacing the generator walks with lies
    in [2, 0xE9] and is not a multiple of 47. *)
Theorem filter_spacing_normalized (spacing : Z) :
  0 <= spacing < 256 ->
  2 <= filter_spacing spacing <= 0xE9 /\
  filter_spacing spacing mod 47 <> 0.
Proof. apply filter_spacing_bounds. Qed.

Lemma filter_spacing_normalized_witness :
  (2 <= filter_spacing 0 <= 0xE9 /\ filter_spacing 0 mod 47 <> 0) /\
  (2 <= filter_spacing 0xFF <= 0xE9 /\ filter_spacing 0xFF mod 47 <> 0) /\
  (2 <= filter_spacing 94 <= 0xE9 /\ filter_spacing 94 mod 47 <> 0).
Proof.
  repeat split; try (apply (filter_spacing_normalized 0); lia);
    try (apply (filter_spacing_normalized 0xFF); lia);
    apply (filter_spacing_normalized 94); lia.
Defined.

(** ** Hopping table *)

Lemma reserved_channel_false v :
  reserved_channel v = false <-> v <> 0x00 /\ v <> 0x5A /\ v <> 0xDC.
Proof. unfold reserved_channel. lia. Qed.

Lemma reserved_channel_true v :
  reserved_channel v = true <-> v = 0x00 \/ v = 0x5A \/ v = 0xDC.
Proof. unfold reserved_channel. lia. Qed.

(** What one pass of the loop body stores: a channel below 0xEB that is
    none of the reserved ones. *)
Lemma hop_loop_body_stores sp c hop i :
  0 <= c -> 0 <= sp ->
  let st := hop_loop_body sp (c, hop) i in
  0 <= st.1 < 0xEB /\
  exists val, st.2 = <[i := val]> hop /\
              0 <= val < 0xEB /\ reserved_channel val = false.
Proof.
  intros Hc Hsp. unfold hop_loop_body. cbn [fst snd].
  assert (Hm : 0 <= (c + sp) mod 0xEB < 0xEB) by (apply Z.mod_pos_bound; lia).
  rewrite (u8_small ((c + sp) mod 0xEB)) by lia.
  split; [lia|].
  destruct (reserved_channel ((c + sp) mod 235)) eqn:E.
  - apply reserved_channel_true in E. eexists; split; [reflexivity|].
    destruct E as [E | [E | E]]; rewrite E; vm_compute; intuition congruence.
  - eexists; split; [reflexivity|]. split; [lia | exact E].
Qed.

Lemma hop_loop_spec sp l : forall c hop,
  0 <= c -> 0 <= sp ->
  let r := fold_left (hop_loop_body sp) l (c, hop) in
  length r.2 = length hop /\
  (forall i, i ∉ l -> r.2 !! i = hop !! i) /\
  (forall i, i ∈ l -> (i < length hop)%nat ->
     exists val, r.2 !! i = Some val /\
                 0 <= val < 0xEB /\ reserved_channel val = false).
Proof.
  induction l as [|a l IH]; intros c hop Hc Hsp.
  - cbn. split; [done|]. split; [done|]. intros i Hi. by apply elem_of_nil in Hi.
  - cbn [fold_left].
    destruct (hop_loop_body_stores sp c hop a Hc Hsp) as [Hc' (val & Hst & Hval)].
    destruct (hop_loop_body sp (c, hop) a) as [c' hop'] eqn:Hbody.
    cbn [fst snd] in Hc', Hst. subst hop'.
    destruct (IH c' (<[a := val]> hop) ltac:(lia) Hsp) as (Hlen & Hout & Hin).
    rewrite length_insert in Hlen, Hin.
    split; [exact Hlen|]. split.
    + intros i Hi. apply not_elem_of_cons in Hi as [Hne Hi].
      rewrite (Hout i Hi). by apply list_lookup_insert_ne.
    + intros i Hi Hlt. destruct (decide (i ∈ l)) as [Hil | Hil].
      * by apply Hin.
      * apply elem_of_cons in Hi as [-> | Hi]; [|done].
        exists val. rewrite (Hout a Hil).
        split; [by apply list_lookup_insert_eq | exact Hval].
Qed.

(** Slot 0 is the seed [id0 & 0x07] as it is; slots 1..46 hold channels
    below 0xEB that are not reserved. *)
Lemma hopping_table_slots id hop :
  length hop = NUM_CHANNELS -> 0 <= id.2 < 256 ->
  length (hopping_table id hop) = NUM_CHANNELS /\
  hopping_table id hop !! 0%nat = Some (Z.land id.1 0x07) /\
  forall i, (1 <= i < NUM_CHANNELS)%nat ->
    exists val, hopping_table id hop !! i = Some val /\
                0 <= val < 0xEB /\ reserved_channel val = false.
Proof.
  intros Hlen Hid. unfold hopping_table.
  assert (Hseed : 0 <= Z.land id.1 0x07 < 8).
  { change 7 with (Z.ones 3). rewrite Z.land_ones by lia.
    apply Z.mod_pos_bound. lia. }
  rewrite (u8_small (Z.land id.1 7)) by lia.
  pose proof (filter_spacing_bounds id.2 Hid) as [Hsp _].
  destruct (hop_loop_spec (filter_spacing id.2) (seq 1 (NUM_CHANNELS - 1))
              (Z.land id.1 7) (<[0%nat := Z.land id.1 7]> hop)
              ltac:(lia) ltac:(lia)) as (Hl & Hout & Hin).
  rewrite length_insert in Hl, Hin.
  split; [lia|]. split.
  - rewrite Hout.
    + apply list_lookup_insert_eq. rewrite Hlen. unfold NUM_CHANNELS. lia.
    + rewrite elem_of_seq. lia.
  - intros i Hi. apply Hin.
    + rewrite elem_of_seq. unfold NUM_CHANNELS in *. lia.
    + lia.
Qed.

(** Every entry of the generated table is below 0xEB, slot 0 included. *)
Lemma hopping_table_below_0xEB id hop i val :
  length hop = NUM_CHANNELS -> 0 <= id.2 < 256 ->
  hopping_table id hop !! i = Some val -> 0 <= val < 0xEB.
Proof.
  intros Hlen Hid Hi.
  destruct (hopping_table_slots id hop Hlen Hid) as (Hl & H0 & Hrest).
  apply lookup_lt_Some in Hi as Hlt. rewrite Hl in Hlt.
  destruct i as [|i].
  - rewrite H0 in Hi. injection Hi as <-.
    change 7 with (Z.ones 3). rewrite Z.land_ones by lia.
    pose proof (Z.mod_pos_bound id.1 (2 ^ 3)). lia.
  - destruct (Hrest (S i) ltac:(lia)) as (v & Hv & Hr & _). congruence.
Qed.

(** C1 as stated does not hold for every identity: the generator stores
    the seed [id0 & 0x07] in slot 0 as it is, so for the identity
    (0x00, 0x14) slot 0 of the 47-entry table is the reserved channel 0x00
    and the table is not clean. *)
Lemma setup_hopping_table_slot0_reserved :
  let d := setup_hopping_table (set_bindTxId (0x00, 0x14) power_on_driver) in
  length (bindHopData d) = 47%nat /\
  bindHopData d !! 0%nat = Some 0x00 /\
  clean_table (bindHopData d) = false.
Proof. vm_compute. repeat split; reflexivity. Qed.

(** ** Channel packing *)

(** C3 as stated does not hold: for a = 0xABC, b = 0x123 the packer does
    not produce {0xBC, 0xA1, 0x12}. *)
Lemma pack_pair_example_not_A1 :
  pack_pair 0xABC 0x123 <> (0xBC, 0xA1, 0x12) /\
  take 3 (drop 9 (normal_packet example_inputs power_on_driver))
  <> [0xBC; 0xA1; 0x12].
Proof. split; vm_compute; discriminate. Qed.

(** C3, amended. For a = 0xABC, b = 0x123 the packer produces
    {0xBC, 0x3A, 0x12}: the middle byte has the high 4 bits of a (0xA) in
    its low nibble and the low 4 bits of b (0x3) in its high nibble; these
    are bytes 9..11 of the normal frame built from those inputs. *)
Theorem pack_pair_example :
  pack_pair 0xABC 0x123 = (0xBC, 0x3A, 0x12) /\
  forall d, take 3 (drop 9 (normal_packet example_inputs d)) = [0xBC; 0x3A; 0x12].
Proof. split; [vm_compute; reflexivity | intros d; reflexivity]. Qed.

Lemma lor_shiftl_add x y n :
  0 <= n -> 0 <= x < 2 ^ n -> Z.lor x (Z.shiftl y n) = x + y * 2 ^ n.
Proof.
  intros Hn Hx. rewrite Z.shiftl_mul_pow2 by lia.
  assert (Hd : Z.land x (y * 2 ^ n) = 0).
  { apply Z.bits_inj'. intros k Hk. rewrite Z.land_spec, Z.bits_0.
    destruct (Z.lt_ge_cases k n) as [Hlt | Hge].
    - rewrite (Z.mul_pow2_bits_low y n k) by lia. apply andb_false_r.
    - rewrite <- (Z.mod_small x (2 ^ n)) by lia.
      rewrite Z.mod_pow2_bits_high by lia. reflexivity. }
  rewrite <- Z.lxor_lor by exact Hd. symmetry. apply Z.add_nocarry_lxor. exact Hd.
Qed.

(** The packer in arithmetic form, for 16-bit inputs. *)
Lemma pack_pair_arith a b :
  0 <= a < 65536 -> 0 <= b < 65536 ->
  pack_pair a b =
  (a mod 256, (a / 256) mod 16 + 16 * (b mod 16), (b / 16) mod 256).
Proof.
  intros Ha Hb. unfold pack_pair, u8.
  change 0xFF with (Z.ones 8). change 0x0F with (Z.ones 4).
  rewrite !Z.land_ones by lia. rewrite !Z.shiftr_div_pow2 by lia.
  rewrite lor_shiftl_add by (try apply Z.mod_pos_bound; lia).
  change (2 ^ 8) with 256. change (2 ^ 4) with 16.
  rewrite !pair_equal_spec; repeat split; Z.div_mod_to_equations; lia.
Qed.

(** C4. For 16-bit inputs the encoding is that of the inputs reduced
    modulo 4096, and for 12-bit inputs the inverse of the documented
    layout gives both values back. *)
Theorem pack_pair_roundtrip (a b : Z) :
  0 <= a < 65536 -> 0 <= b < 65536 ->
  pack_pair a b = pack_pair (a mod 4096) (b mod 4096) /\
  (a < 4096 -> b < 4096 -> unpack_pair (pack_pair a b) = (a, b)).
Proof.
  intros Ha Hb. split.
  - rewrite (pack_pair_arith a b Ha Hb).
    rewrite (pack_pair_arith (a mod 4096) (b mod 4096))
      by (split; Z.div_mod_to_equations; lia).
    rewrite !pair_equal_spec; repeat split; Z.div_mod_to_equations; lia.
  - intros Ha' Hb'. rewrite (pack_pair_arith a b Ha Hb). unfold unpack_pair.
    change 0x0F with (Z.ones 4).
    rewrite Z.land_ones by lia. rewrite Z.shiftr_div_pow2 by lia.
    rewrite !lor_shiftl_add by (try split; Z.div_mod_to_equations; lia).
    change (2 ^ 8) with 256. change (2 ^ 4) with 16.
    rewrite pair_equal_spec; split; Z.div_mod_to_equations; lia.
Qed.

Lemma pack_pair_roundtrip_witness :
  pack_pair 0xFABC 0x5123 = pack_pair (0xFABC mod 4096) (0x5123 mod 4096) /\
  unpack_pair (pack_pair 0xABC 0x123) = (0xABC, 0x123).
Proof.
  split.
  - apply (pack_pair_roundtrip 0xFABC 0x5123); lia.
  - apply (pack_pair_roundtrip 0xABC 0x123); lia.
Defined.

(** ** What each driver function does to the world *)

Ltac run_M :=
  cbv [mbind M_bind mret M_ret get_drv modify_drv emit timer_call_after_ms
       delay_ms gpio_set gpio_clear gpio_config cc2500_Strobe cc2500_WriteReg
       cc2500_WriteFifo send_packet array_read];
  cbn [drv radio timers].

Lemma bind_done {A B} (m : M A) (k : A -> M B) w b w'' :
  (m ≫= k) w = Done b w'' ->
  exists a w', m w = Done a w' /\ k a w' = Done b w''.
Proof.
  unfold mbind, M_bind. destruct (m w) as [a w'| |]; try discriminate.
  intros H. by exists a, w'.
Qed.

Lemma send_bind_packet_exec w :
  send_bind_packet w =
  let bc := u16 (bindcount (drv w) + 1) in
  Done tt (mkWorld
             (set_bindcount bc (set_idx (advance_idx (idx (drv w))) (drv w)))
             (radio w ++
              [EvStrobe CC2500_SIDLE; EvWriteReg CC2500_0A_CHANNR 0;
               EvGpioSet RADIO_PACTL; EvStrobe CC2500_SFTX;
               EvWriteFifo 0x7F (take 30 (bind_packet (drv w)));
               EvStrobe CC2500_STX])
             (timers w ++
              [(9, if bc >? 500 then cb_send_normal_packet
                   else cb_send_bind_packet)])).
Proof.
  unfold send_bind_packet. run_M. cbn [set_idx set_bindcount bindcount].
  rewrite <- !app_assoc. cbn [app].
  destruct (u16 (bindcount (drv w) + 1) >? 500); reflexivity.
Qed.

Lemma after_send_bind_packet w :
  after send_bind_packet w =
  let bc := u16 (bindcount (drv w) + 1) in
  mkWorld (set_bindcount bc (set_idx (advance_idx (idx (drv w))) (drv w)))
    (radio w ++
     [EvStrobe CC2500_SIDLE; EvWriteReg CC2500_0A_CHANNR 0;
      EvGpioSet RADIO_PACTL; EvStrobe CC2500_SFTX;
      EvWriteFifo 0x7F (take 30 (bind_packet (drv w)));
      EvStrobe CC2500_STX])
    (timers w ++
     [(9, if bc >? 500 then cb_send_normal_packet else cb_send_bind_packet)]).
Proof. unfold after. by rewrite send_bind_packet_exec. Qed.

Lemma setChannel_exec channel cal hop w :
  calData (drv w) !! Z.to_nat channel = Some cal ->
  bindHopData (drv w) !! Z.to_nat channel = Some hop ->
  setChannel channel w =
  Done tt (mkWorld (drv w)
             (radio w ++
              [EvStrobe CC2500_SIDLE;
               EvWriteReg CC2500_23_FSCAL3 cal.1.1;
               EvWriteReg CC2500_24_FSCAL2 cal.1.2;
               EvWriteReg CC2500_25_FSCAL1 cal.2;
               EvWriteReg CC2500_0A_CHANNR hop])
             (timers w)).
Proof.
  intros Hcal Hhop. unfold setChannel. run_M. rewrite Hcal. run_M.
  rewrite Hhop. run_M. rewrite <- !app_assoc. reflexivity.
Qed.

(** [setChannel] returns exactly when its index is inside both tables. *)
Lemma setChannel_fault channel w :
  (calData (drv w) !! Z.to_nat channel = None \/
   bindHopData (drv w) !! Z.to_nat channel = None) ->
  setChannel channel w = Fault.
Proof.
  intros H. unfold setChannel. run_M.
  destruct (calData (drv w) !! Z.to_nat channel) eqn:E1; [|reflexivity].
  destruct H as [H | H]; [discriminate|]. rewrite H. reflexivity.
Qed.

Lemma start_receive_exec cal hop w :
  let c := u8 ((channr (drv w) + chanskip (drv w)) mod 47) in
  calData (drv w) !! Z.to_nat c = Some cal ->
  bindHopData (drv w) !! Z.to_nat c = Some hop ->
  start_receive w =
  Done tt (mkWorld (set_channr c (drv w))
             (radio w ++
              [EvGpioClear RADIO_PACTL; EvStrobe CC2500_SIDLE;
               EvStrobe CC2500_SIDLE;
               EvWriteReg CC2500_23_FSCAL3 cal.1.1;
               EvWriteReg CC2500_24_FSCAL2 cal.1.2;
               EvWriteReg CC2500_25_FSCAL1 cal.2;
               EvWriteReg CC2500_0A_CHANNR hop;
               EvStrobe CC2500_SRX])
             (timers w ++ [(3, cb_send_normal_packet)])).
Proof.
  intros c Hcal Hhop. unfold start_receive, setChannel. run_M.
  cbn [set_channr channr calData bindHopData]. fold c. rewrite Hcal. run_M.
  cbn [bindHopData]. rewrite Hhop. run_M. rewrite <- !app_assoc. reflexivity.
Qed.

Lemma start_receive_done w w' :
  start_receive w = Done tt w' ->
  let c := u8 ((channr (drv w) + chanskip (drv w)) mod 47) in
  exists cal hop,
    calData (drv w) !! Z.to_nat c = Some cal /\
    bindHopData (drv w) !! Z.to_nat c = Some hop /\
    w' = mkWorld (set_channr c (drv w))
           (radio w ++
            [EvGpioClear RADIO_PACTL; EvStrobe CC2500_SIDLE;
             EvStrobe CC2500_SIDLE;
             EvWriteReg CC2500_23_FSCAL3 cal.1.1;
             EvWriteReg CC2500_24_FSCAL2 cal.1.2;
             EvWriteReg CC2500_25_FSCAL1 cal.2;
             EvWriteReg CC2500_0A_CHANNR hop;
             EvStrobe CC2500_SRX])
           (timers w ++ [(3, cb_send_normal_packet)]).
Proof.
  intros H c.
  destruct (calData (drv w) !! Z.to_nat c) as [cal|] eqn:Hcal;
    [destruct (bindHopData (drv w) !! Z.to_nat c) as [hop|] eqn:Hhop|].
  - exists cal, hop. rewrite (start_receive_exec cal hop w Hcal Hhop) in H.
    by injection H as <-.
  - exfalso. revert H. unfold start_receive, setChannel. run_M.
    cbn [set_channr channr calData bindHopData]. fold c. rewrite Hcal. run_M.
    cbn [bindHopData]. rewrite Hhop. discriminate.
  - exfalso. revert H. unfold start_receive, setChannel. run_M.
    cbn [set_channr channr calData bindHopData]. fold c. rewrite Hcal.
    discriminate.
Qed.

(** ** Frames *)

Lemma calc_crc_step_range crc data : 0 <= calc_crc_step crc data < 65536.
Proof. apply u16_range. Qed.

Lemma calc_crc_range data len : 0 <= calc_crc data len < 65536.
Proof.
  unfold calc_crc. generalize (take len data). intros l.
  assert (H : forall acc, 0 <= acc < 65536 ->
                          0 <= fold_left calc_crc_step l acc < 65536).
  { induction l as [|b l IH]; intros acc Hacc; cbn [fold_left]; [exact Hacc|].
    apply IH, calc_crc_step_range. }
  apply H. lia.
Qed.

Lemma store_crc_ok packet : length packet = 30%nat -> frame_ok (store_crc packet).
Proof.
  intros Hlen. unfold store_crc, frame_ok.
  set (lcrc := calc_crc (drop 3 packet) (30 - 5)).
  pose proof (calc_crc_range (drop 3 packet) (30 - 5)) as Hr. fold lcrc in Hr.
  split; [by rewrite !length_insert|].
  exists (u8 (Z.shiftr lcrc 8)), (u8 lcrc). split; [|split].
  - rewrite list_lookup_insert_ne by lia.
    apply list_lookup_insert_eq. lia.
  - apply list_lookup_insert_eq. rewrite length_insert. lia.
  - split; [apply u8_range|]. split; [apply u8_range|].
    rewrite !drop_insert_ge by lia. rewrite !take_insert_ge by lia.
    unfold calc_crc at 1. rewrite take_take. change (25 `min` 25)%nat with 25%nat.
    unfold u8. rewrite Z.shiftr_div_pow2 by lia. change (2 ^ 8) with 256.
    transitivity lcrc; [Z.div_mod_to_equations; lia | reflexivity].
Qed.

Lemma bind_hop_body_length d packet i :
  length (bind_hop_body d packet i) = length packet.
Proof. unfold bind_hop_body. case_match; [apply length_insert | done]. Qed.

Lemma bind_packet_ok d : frame_ok (bind_packet d).
Proof.
  unfold bind_packet. apply store_crc_ok. cbn [fold_left].
  rewrite !length_insert, !bind_hop_body_length, !length_insert. reflexivity.
Qed.

Lemma emitted_frames_app tr1 tr2 :
  emitted_frames (tr1 ++ tr2) = emitted_frames tr1 ++ emitted_frames tr2.
Proof. apply omap_app. Qed.

(** ** Bind cursor *)

Lemma advance_idx_cycle (n : nat) :
  Nat.iter n advance_idx 0 = (5 * Z.of_nat n) mod 50.
Proof.
  induction n as [|n IH]; [reflexivity|].
  rewrite Nat.iter_succ, IH. unfold advance_idx, u8.
  rewrite Nat2Z.inj_succ.
  destruct (Z.geb_spec (((5 * Z.of_nat n) mod 50 + 5) mod 256) 50);
    Z.div_mod_to_equations; lia.
Qed.

Lemma idx_after_builds n w :
  idx (drv (Nat.iter n (after send_bind_packet) w)) =
  Nat.iter n advance_idx (idx (drv w)).
Proof.
  induction n as [|n IH]; [reflexivity|].
  rewrite !Nat.iter_succ, after_send_bind_packet. cbn. by rewrite IH.
Qed.

Lemma bind_packet_cursor d : bind_packet d !! 5%nat = Some (idx d).
Proof.
  unfold bind_packet, store_crc. cbn [fold_left]. unfold bind_hop_body.
  repeat case_match; reflexivity.
Qed.

Lemma bind_packet_zero_fill d i :
  0 <= i < 5 -> 47 <= idx d + i ->
  bind_packet d !! Z.to_nat (6 + i) = Some 0.
Proof.
  intros Hi Hge.
  assert (Hc : i = 0 \/ i = 1 \/ i = 2 \/ i = 3 \/ i = 4) by lia.
  unfold bind_packet, store_crc. cbn [fold_left]. unfold bind_hop_body.
  destruct Hc as [-> | [-> | [-> | [-> | ->]]]];
    repeat match goal with
           | |- context [?a <? ?b] => destruct (Z.ltb_spec a b); try lia
           end;
    reflexivity.
Qed.

(** C7. From cursor 0, the cursor after [n] bind-frame builds is
    [5 * n mod 50]: each build adds 5 and goes back to 0 exactly when the
    sum would reach 50, so the first builds see 0, 5, ..., 45, 0. Each
    frame carries its cursor in byte 5, and a payload byte 6+i whose table
    index cursor+i is 47 or more is zero. *)
Theorem bind_cursor_wraps (w : world) (n : nat) :
  idx (drv w) = 0 ->
  let w_n := Nat.iter n (after send_bind_packet) w in
  let cursor := idx (drv w_n) in
  cursor = (5 * Z.of_nat n) mod 50 /\
  idx (drv (after send_bind_packet w_n)) =
    (if cursor + 5 >=? 50 then 0 else cursor + 5) /\
  (fun k => idx (drv (Nat.iter k (after send_bind_packet) w))) <$> seq 0 11 =
    [0; 5; 10; 15; 20; 25; 30; 35; 40; 45; 0] /\
  bind_packet (drv w_n) !! 5%nat = Some cursor /\
  forall d i, 0 <= i < 5 -> 47 <= idx d + i ->
              bind_packet d !! Z.to_nat (6 + i) = Some 0.
Proof.
  intros H0 w_n cursor.
  assert (Hc : cursor = (5 * Z.of_nat n) mod 50).
  { unfold cursor, w_n. by rewrite idx_after_builds, H0, advance_idx_cycle. }
  split; [exact Hc|]. split; [|split; [|split]].
  - change (after send_bind_packet w_n)
      with (Nat.iter (S n) (after send_bind_packet) w).
    rewrite idx_after_builds, H0, advance_idx_cycle, Hc, Nat2Z.inj_succ.
    destruct (Z.geb_spec ((5 * Z.of_nat n) mod 50 + 5) 50);
      Z.div_mod_to_equations; lia.
  - cbn [fmap list_fmap seq].
    rewrite !idx_after_builds, H0, !advance_idx_cycle. reflexivity.
  - apply bind_packet_cursor.
  - intros d i. apply bind_packet_zero_fill.
Qed.

Lemma bind_cursor_wraps_witness :
  idx (drv power_on) = 0 /\
  idx (drv (Nat.iter 10 (after send_bind_packet) power_on)) = 0 /\
  bind_packet (drv (Nat.iter 9 (after send_bind_packet) power_on)) !! 8%nat
  = Some 0.
Proof.
  pose proof (bind_cursor_wraps power_on 10 eq_refl) as (H10 & _).
  pose proof (bind_cursor_wraps power_on 9 eq_refl) as (_ & _ & _ & _ & Hz).
  split; [reflexivity|]. split; [exact H10|].
  apply (Hz (drv (Nat.iter 9 (after send_bind_packet) power_on)) 2);
    [lia | vm_compute; discriminate].
Defined.

(** ** Quiet functions *)

Lemma quiet_ret {A} (a : A) : quiet (mret a).
Proof. intros w a' w' H. injection H as _ <-. done. Qed.

Lemma quiet_bind {A B} (m : M A) (k : A -> M B) :
  quiet m -> (forall a, quiet (k a)) -> quiet (m ≫= k).
Proof.
  intros Hm Hk w b w'' H. apply bind_done in H as (a & w' & H1 & H2).
  destruct (Hm _ _ _ H1) as [E1 E2]. destruct (Hk a _ _ _ H2) as [E3 E4].
  split; congruence.
Qed.

Lemma quiet_emit ev : quiet (emit ev).
Proof. intros w a w' H. injection H as _ <-. done. Qed.

Lemma quiet_get_drv : quiet get_drv.
Proof. intros w a w' H. injection H as _ <-. done. Qed.

Lemma quiet_array_read {A} (arr : list A) i : quiet (array_read arr i).
Proof.
  intros w a w' H. unfold array_read in H.
  destruct (arr !! Z.to_nat i); [|discriminate]. injection H as _ <-. done.
Qed.

Lemma quiet_for_each {A} (l : list A) (body : A -> M unit) :
  (forall x, quiet (body x)) -> quiet (for_each l body).
Proof.
  intros Hb. induction l as [|x l IH]; cbn [for_each].
  - apply quiet_ret.
  - apply quiet_bind; [apply Hb | intros _; exact IH].
Qed.

Create HintDb quiet.
#[local] Hint Resolve quiet_ret quiet_emit quiet_get_drv
  quiet_array_read : quiet.
#[local] Hint Extern 1 (quiet (_ ≫= _)) => apply quiet_bind; [|intros] : quiet.
#[local] Hint Extern 1 (quiet (for_each _ _)) =>
  apply quiet_for_each; intros : quiet.
#[local] Hint Extern 2 (quiet (cc2500_Strobe _)) => apply quiet_emit : quiet.
#[local] Hint Extern 2 (quiet (cc2500_WriteReg _ _)) => apply quiet_emit : quiet.
#[local] Hint Extern 2 (quiet (delay_ms _)) => apply quiet_emit : quiet.
#[local] Hint Extern 2 (quiet (gpio_config _ _)) => apply quiet_emit : quiet.
#[local] Hint Extern 2 (quiet (gpio_set _)) => apply quiet_emit : quiet.
#[local] Hint Extern 2 (quiet (gpio_clear _)) => apply quiet_emit : quiet.

Lemma quiet_initialiseData adr : quiet (initialiseData adr).
Proof. unfold initialiseData. auto 10 with quiet. Qed.

Lemma quiet_setChannel channel : quiet (setChannel channel).
Proof. unfold setChannel. auto 12 with quiet. Qed.

Lemma modify_drv_done f w a w' :
  modify_drv f w = Done a w' -> drv w' = f (drv w) /\ timers w' = timers w.
Proof. intros H. injection H as _ <-. done. Qed.

Lemma radio_start_send_done use_dsm2 w w' :
  radio_start_send use_dsm2 w = Done tt w' ->
  drv w' = drv w /\ timers w' = timers w ++ [(2, cb_send_bind_packet)].
Proof.
  intros H. unfold radio_start_send in H.
  apply bind_done in H as (? & w1 & H1 & H).
  apply quiet_setChannel in H1 as [Hd Ht].
  injection H as <-. cbn. by rewrite Hd, Ht.
Qed.

Lemma bind_eq {A B} (m : M A) (k : A -> M B) w a w1 :
  m w = Done a w1 -> (m ≫= k) w = k a w1.
Proof. intros H. unfold mbind, M_bind. by rewrite H. Qed.

Lemma total_ret {A} (a : A) : total (mret a).
Proof. intros w. by exists a, w. Qed.

Lemma total_bind {A B} (m : M A) (k : A -> M B) :
  total m -> (forall a, total (k a)) -> total (m ≫= k).
Proof.
  intros Hm Hk w. destruct (Hm w) as (a & w1 & H1).
  rewrite (bind_eq m k w a w1 H1). apply Hk.
Qed.

Lemma total_emit ev : total (emit ev).
Proof. intros w. by eexists _, _. Qed.

Lemma total_get_drv : total get_drv.
Proof. intros w. by eexists _, _. Qed.

Lemma total_modify_drv f : total (modify_drv f).
Proof. intros w. by eexists _, _. Qed.

Lemma total_for_each {A} (l : list A) (body : A -> M unit) :
  (forall x, total (body x)) -> total (for_each l body).
Proof.
  intros Hb. induction l as [|x l IH]; cbn [for_each].
  - apply total_ret.
  - apply total_bind; [apply Hb | intros _; exact IH].
Qed.

Create HintDb total.
#[local] Hint Resolve total_ret total_emit total_get_drv total_modify_drv
  : total.
#[local] Hint Extern 1 (total (_ ≫= _)) => apply total_bind; [|intros] : total.
#[local] Hint Extern 1 (total (for_each _ _)) =>
  apply total_for_each; intros : total.
#[local] Hint Extern 2 (total (cc2500_Strobe _)) => apply total_emit : total.
#[local] Hint Extern 2 (total (cc2500_WriteReg _ _)) => apply total_emit : total.
#[local] Hint Extern 2 (total (delay_ms _)) => apply total_emit : total.
#[local] Hint Extern 2 (total (gpio_config _ _)) => apply total_emit : total.
#[local] Hint Extern 2 (total (gpio_set _)) => apply total_emit : total.
#[local] Hint Extern 2 (total (gpio_clear _)) => apply total_emit : total.

Lemma total_initialiseData adr : total (initialiseData adr).
Proof. unfold initialiseData. auto 10 with total. Qed.

(** ** Bring-up *)

Section Bringup.
Variable chip : list event -> Z -> Z.

Lemma quiet_ReadReg reg : quiet (cc2500_ReadReg chip reg).
Proof. intros w a w' H. injection H as _ <-. done. Qed.

#[local] Hint Resolve quiet_ReadReg : quiet.

Lemma quiet_wait_for_radio fuel : quiet (wait_for_radio chip fuel).
Proof.
  induction fuel as [|fuel IH]; cbn [wait_for_radio].
  - intros w a w' H. discriminate.
  - apply quiet_bind; [auto with quiet|]. intros partnum.
    destruct (negb (partnum =? 128)); [auto with quiet|].
    apply quiet_bind; [auto with quiet|]. intros version.
    destruct (negb (version =? 3)); auto with quiet.
Qed.

Lemma quiet_Reset : quiet (cc2500_Reset chip).
Proof. unfold cc2500_Reset. auto 10 with quiet. Qed.

(** One calibration visit rewrites one row of [calData] and nothing else. *)
Lemma calibrate_body_done i w w' :
  calibrate_body chip i w = Done tt w' ->
  timers w' = timers w /\
  exists row, drv w' = set_calData (<[i := row]> (calData (drv w))) (drv w).
Proof.
  unfold calibrate_body. intros H.
  repeat match type of H with
         | (_ ≫= _) _ = Done _ _ =>
             let a := fresh "a" in let w1 := fresh "w" in
             let H1 := fresh "Hq" in
             apply bind_done in H as (a & w1 & H1 & H);
             first [ apply quiet_emit in H1 as [? ?]
                   | apply quiet_ReadReg in H1 as [? ?]
                   | apply quiet_array_read in H1 as [? ?]
                   | (injection H1 as <- <-) ]
         end.
  apply modify_drv_done in H as [Hd Ht].
  match type of Hd with
  | _ = set_calData _ (drv ?w7) =>
      assert (Hsame : drv w7 = drv w) by congruence; rewrite Hsame in Hd
  end.
  split; [congruence|]. eexists. exact Hd.
Qed.

Lemma calibrate_loop_done l w w' :
  for_each l (calibrate_body chip) w = Done tt w' ->
  timers w' = timers w /\
  exists cal, drv w' = set_calData cal (drv w) /\
              length cal = length (calData (drv w)).
Proof.
  revert w. induction l as [|i l IH]; intros w H; cbn [for_each] in H.
  - injection H as <-. split; [done|]. exists (calData (drv w)).
    split; [by destruct (drv w) | done].
  - apply bind_done in H as ([] & w1 & H1 & H2).
    apply calibrate_body_done in H1 as (Ht1 & row & Hd1).
    apply IH in H2 as (Ht2 & cal & Hd2 & Hlen).
    split; [congruence|]. exists cal. rewrite Hd2, Hd1. split; [reflexivity|].
    rewrite Hlen, Hd1. cbn. apply length_insert.
Qed.

Lemma radio_init_hw_done fuel w w' :
  drv w = power_on_driver ->
  radio_init_hw chip fuel w = Done tt w' ->
  timers w' = timers w /\
  exists cal, drv w' = set_calData cal configured_driver /\
              length cal = NUM_CHANNELS.
Proof.
  intros Hd0 H. unfold radio_init_hw in H.
  apply bind_done in H as (? & w1 & H1 & H).
  apply quiet_wait_for_radio in H1 as [Hd1 Ht1].
  apply bind_done in H as (? & w2 & H2 & H).
  apply quiet_Reset in H2 as [Hd2 Ht2].
  apply bind_done in H as (? & w3 & H3 & H).
  apply quiet_for_each in H3 as [Hd3 Ht3]; [|intros; apply quiet_emit].
  apply bind_done in H as (? & w4 & H4 & H).
  apply quiet_emit in H4 as [Hd4 Ht4].
  apply bind_done in H as (? & w5 & H5 & H).
  apply modify_drv_done in H5 as [Hd5 Ht5].
  apply bind_done in H as (? & w6 & H6 & H).
  apply modify_drv_done in H6 as [Hd6 Ht6].
  apply bind_done in H as (? & w7 & H7 & H).
  apply modify_drv_done in H7 as [Hd7 Ht7].
  apply bind_done in H as ([] & w8 & H8 & H).
  apply calibrate_loop_done in H8 as (Ht8 & cal & Hd8 & Hlen).
  apply bind_done in H as (? & w9 & H9 & H).
  apply quiet_emit in H9 as [Hd9 Ht9].
  apply bind_done in H as (? & w10 & H10 & H).
  apply quiet_emit in H10 as [Hd10 Ht10].
  apply bind_done in H as (? & w11 & H11 & H).
  apply quiet_emit in H11 as [Hd11 Ht11].
  apply quiet_initialiseData in H as [Hd12 Ht12].
  assert (Hd7' : drv w7 = configured_driver).
  { rewrite Hd7, Hd6, Hd5, Hd4, Hd3, Hd2, Hd1, Hd0. reflexivity. }
  split; [congruence|]. exists cal. split.
  - rewrite Hd12, Hd11, Hd10, Hd9, Hd8, Hd7'. reflexivity.
  - rewrite Hlen, Hd7'. reflexivity.
Qed.

(** Bring-up returns as soon as the chip identifies itself: no array is
    indexed out of its bounds on the way. *)
Lemma total_ReadReg reg : total (cc2500_ReadReg chip reg).
Proof. intros w. by eexists _, _. Qed.

#[local] Hint Resolve total_ReadReg : total.

Lemma total_Reset : total (cc2500_Reset chip).
Proof. unfold cc2500_Reset. auto 10 with total. Qed.

Lemma total_wait_for_radio fuel :
  identifies chip -> total (wait_for_radio chip (S fuel)).
Proof.
  intros Hid w. cbn [wait_for_radio].
  unfold mbind, M_bind, cc2500_ReadReg.
  change (u8 (Z.lor (Z.lor CC2500_30_PARTNUM CC2500_READ_BURST)
                    CC2500_READ_SINGLE)) with 0xF0.
  change (u8 (Z.lor (Z.lor CC2500_31_VERSION CC2500_READ_BURST)
                    CC2500_READ_SINGLE)) with 0xF1.
  cbv zeta. rewrite (proj1 (Hid _)). cbn [Z.eqb Pos.eqb negb radio].
  rewrite (proj2 (Hid _)). cbn [Z.eqb Pos.eqb negb]. by eexists _, _.
Qed.

Lemma calibrate_body_returns i w :
  (i < length (bindHopData (drv w)))%nat ->
  exists w', calibrate_body chip i w = Done tt w'.
Proof.
  intros Hi. destruct (lookup_lt_is_Some_2 _ _ Hi) as [hop Hhop].
  unfold calibrate_body. run_M. rewrite Nat2Z.id, Hhop.
  unfold cc2500_ReadReg. by eexists.
Qed.

Lemma calibrate_loop_returns l : forall w,
  (forall i, i ∈ l -> (i < length (bindHopData (drv w)))%nat) ->
  exists w', for_each l (calibrate_body chip) w = Done tt w'.
Proof.
  induction l as [|i l IH]; intros w Hl; cbn [for_each]; [by eexists|].
  destruct (calibrate_body_returns i w) as [w1 H1];
    [apply Hl; by left|].
  rewrite (bind_eq _ _ _ _ _ H1). apply IH. intros j Hj.
  apply calibrate_body_done in H1 as (_ & row & ->). cbn [bindHopData set_calData].
  apply Hl. by right.
Qed.

Lemma radio_init_hw_returns fuel w :
  identifies chip -> drv w = power_on_driver ->
  exists w', radio_init_hw chip (S fuel) w = Done tt w'.
Proof.
  intros Hid Hd0. unfold radio_init_hw.
  destruct (total_wait_for_radio fuel Hid w) as ([] & w1 & H1).
  rewrite (bind_eq _ _ _ _ _ H1). apply quiet_wait_for_radio in H1 as [Hd1 _].
  destruct (total_Reset w1) as (ok & w2 & H2).
  rewrite (bind_eq _ _ _ _ _ H2). apply quiet_Reset in H2 as [Hd2 _].
  destruct (total_for_each radio_config
              (fun rv => cc2500_WriteReg rv.1 rv.2)
              (fun rv => total_emit _) w2) as ([] & w3 & H3).
  rewrite (bind_eq _ _ _ _ _ H3).
  apply quiet_for_each in H3 as [Hd3 _]; [|intros; apply quiet_emit].
  run_M.
  destruct (calibrate_loop_returns (seq 0 NUM_CHANNELS)
              (mkWorld (setup_hopping_table
                          (set_chanskip 1 (set_bindTxId (15, 20) (drv w3))))
                       (radio w3 ++ [EvStrobe CC2500_SIDLE]) (timers w3)))
    as [w4 H4].
  { intros i Hi. apply elem_of_seq in Hi. cbn [drv].
    rewrite Hd3, Hd2, Hd1, Hd0. cbn. unfold NUM_CHANNELS in Hi. lia. }
  rewrite H4.
  match goal with
  | |- exists w', initialiseData 1 ?w = _ =>
      destruct (total_initialiseData 1 w) as ([] & w5 & H5)
  end.
  by exists w5.
Qed.

Lemma radio_init_done fuel w w' :
  drv w = power_on_driver ->
  radio_init chip fuel w = Done tt w' ->
  timers w' = timers w /\
  exists cal, drv w' = set_calData cal configured_driver /\
              length cal = NUM_CHANNELS.
Proof.
  intros Hd0 H. unfold radio_init in H.
  do 7 (let Hq := fresh "Hq" in
        apply bind_done in H as (? & ? & Hq & H);
        apply quiet_emit in Hq as [? ?]).
  apply radio_init_hw_done in H as (Ht & cal & Hd & Hlen); [|congruence].
  split; [congruence|]. by exists cal.
Qed.

Lemma boot_done fuel use_dsm2 w0 :
  boot chip fuel use_dsm2 power_on = Done tt w0 -> booted w0.
Proof.
  intros H. unfold boot in H.
  apply bind_done in H as ([] & w1 & H1 & H).
  apply radio_init_done in H1 as (Ht1 & cal & Hd1 & Hlen); [|reflexivity].
  apply radio_start_send_done in H as [Hd Ht].
  split.
  - exists cal. by rewrite Hd, Hd1.
  - by rewrite Ht, Ht1.
Qed.

Lemma boot_returns fuel use_dsm2 :
  identifies chip ->
  exists w0, boot chip (S fuel) use_dsm2 power_on = Done tt w0.
Proof.
  intros Hid. unfold boot.
  assert (Hinit : exists w1, radio_init chip (S fuel) power_on = Done tt w1).
  { unfold radio_init. run_M. by apply radio_init_hw_returns. }
  destruct Hinit as [w1 H1]. rewrite (bind_eq _ _ _ _ _ H1).
  apply radio_init_done in H1 as (_ & cal & Hd & Hlen); [|reflexivity].
  unfold radio_start_send.
  destruct (lookup_lt_is_Some_2 (calData (drv w1)) 0) as [c0 Hc0];
    [rewrite Hd; cbn; rewrite Hlen; unfold NUM_CHANNELS; lia|].
  destruct (lookup_lt_is_Some_2 (bindHopData (drv w1)) 0) as [h0 Hh0];
    [rewrite Hd; cbn; lia|].
  rewrite (bind_eq _ _ _ _ _ (setChannel_exec 0 c0 h0 w1 Hc0 Hh0)).
  by eexists.
Qed.

End Bringup.

Lemma clean_table_spec table :
  clean_table table = true <->
  forall val, val ∈ table -> reserved_channel val = false /\ val < 0xEB.
Proof.
  unfold clean_table. rewrite forallb_forall. split.
  - intros H val Hval. apply list_elem_of_In, H in Hval.
    apply andb_true_iff in Hval as [Hr Hlt].
    split; [by apply negb_true_iff | lia].
  - intros H val Hval. apply list_elem_of_In, H in Hval as [Hr Hlt].
    apply andb_true_iff. split; [by apply negb_true_iff | lia].
Qed.

(** C1, amended. For every identity, every entry of the generated
    47-entry table is below 0xEB and no entry in slots 1..46 is 0x00,
    0x5A or 0xDC; slot 0 is the seed [id0 & 0x07] as it is, so the whole
    table is free of reserved channels exactly when the low three bits
    of id0 are not all clear. Bring-up generates the table from the
    identity (15, 20), and that table is clean in every slot. *)
Theorem setup_hopping_table_clean (d : driver) :
  length (bindHopData d) = NUM_CHANNELS ->
  0 <= (bindTxId d).2 < 256 ->
  let table := bindHopData (setup_hopping_table d) in
  (length table = NUM_CHANNELS /\
   (forall val, val ∈ table -> 0 <= val < 0xEB) /\
   table !! 0%nat = Some (Z.land (bindTxId d).1 0x07) /\
   (forall i val, (1 <= i)%nat -> table !! i = Some val ->
      val <> 0x00 /\ val <> 0x5A /\ val <> 0xDC) /\
   (clean_table table = true <-> Z.land (bindTxId d).1 0x07 <> 0)) /\
  (forall chip fuel use_dsm2 w0,
     boot chip fuel use_dsm2 power_on = Done tt w0 ->
     bindTxId (drv w0) = (15, 20) /\
     bindHopData (drv w0) =
       bindHopData (setup_hopping_table (set_bindTxId (15, 20) power_on_driver)) /\
     clean_table (bindHopData (drv w0)) = true).
Proof.
  intros Hlen Hid table. split.
  - subst table. cbn [setup_hopping_table set_bindHopData bindHopData].
    destruct (hopping_table_slots (bindTxId d) (bindHopData d) Hlen Hid)
      as (Hl & H0 & Hrest).
    assert (Hseed : 0 <= Z.land (bindTxId d).1 0x07 < 8).
    { change 7 with (Z.ones 3). rewrite Z.land_ones by lia.
      apply Z.mod_pos_bound. lia. }
    split; [exact Hl|]. split; [|split; [exact H0|split]].
    + intros val Hval. apply list_elem_of_lookup in Hval as [i Hi].
      by apply (hopping_table_below_0xEB (bindTxId d) (bindHopData d) i).
    + intros i val Hi Hval. apply lookup_lt_Some in Hval as Hlt.
      rewrite Hl in Hlt.
      destruct (Hrest i (conj Hi Hlt)) as (v & Hv & _ & Hr).
      rewrite Hv in Hval. injection Hval as <-.
      by apply reserved_channel_false.
    + rewrite clean_table_spec. split.
      * intros H. apply list_elem_of_lookup_2 in H0. apply H in H0 as [Hr _].
        apply reserved_channel_false in Hr. tauto.
      * intros Hne val Hval. apply list_elem_of_lookup in Hval as [i Hi].
        apply lookup_lt_Some in Hi as Hlt. rewrite Hl in Hlt.
        destruct i as [|i].
        -- rewrite H0 in Hi. injection Hi as <-.
           split; [apply reserved_channel_false|]; lia.
        -- destruct (Hrest (S i) ltac:(lia)) as (v & Hv & Hb & Hr).
           rewrite Hv in Hi. injection Hi as <-. split; [exact Hr | lia].
  - intros chip fuel use_dsm2 w0 Hboot.
    apply boot_done in Hboot as [(cal & Hd & _) _]. rewrite Hd.
    split; [|split]; vm_compute; reflexivity.
Qed.

(** ** The sequencer, step by step *)

Lemma session_boot w0 : booted w0 -> session_at 0 w0.
Proof.
  intros [(cal & Hd & Hlen) Ht]. unfold session_at. rewrite Hd, Ht.
  cbn. repeat split; try done. by exists 2.
Qed.

Lemma single_pending {A} (pre post : list A) x y :
  [y] = pre ++ x :: post -> pre = [] /\ x = y /\ post = [].
Proof.
  destruct pre as [|p pre]; cbn; intros [= -> H]; [by subst|].
  by destruct pre.
Qed.

Lemma even_half m : Nat.even m = true -> (S m / 2 = m / 2)%nat.
Proof.
  intros H. apply Nat.even_spec in H as [k ->].
  rewrite (Nat.mul_comm 2 k), Nat.div_mul by lia.
  change (S (k * 2)) with (1 + k * 2)%nat. rewrite Nat.div_add by lia.
  reflexivity.
Qed.

Lemma odd_half m : Nat.even m = false -> (S m / 2 = S (m / 2))%nat.
Proof.
  intros H. assert (Ho : Nat.odd m = true).
  { unfold Nat.odd. by rewrite H. }
  apply Nat.odd_spec in Ho as [k ->].
  replace (S (2 * k + 1)) with ((k + 1) * 2)%nat by lia.
  rewrite Nat.div_mul by lia.
  rewrite (Nat.add_comm (2 * k) 1), (Nat.mul_comm 2 k), Nat.div_add by lia.
  cbn. lia.
Qed.

Lemma half_early n : (n <= 501)%nat -> ((n - 501) / 2 = 0)%nat.
Proof. intros H. by replace (n - 501)%nat with 0%nat by lia. Qed.

Ltac simpl_session :=
  cbn [drv radio timers set_bindcount set_idx set_channr calData bindHopData
       chanskip bindcount channr idx app].

Lemma pending_at_succ n :
  pending_at (S n) =
  match pending_at n with
  | cb_send_bind_packet =>
      if (S n <=? 500)%nat then cb_send_bind_packet else cb_send_normal_packet
  | cb_send_normal_packet => cb_start_receive
  | cb_start_receive => cb_send_normal_packet
  end.
Proof.
  unfold pending_at.
  destruct (Nat.leb_spec n 500) as [Hn | Hn];
    destruct (Nat.leb_spec (S n) 500) as [Hs | Hs]; try lia; try reflexivity.
  - replace (S n - 501)%nat with 0%nat by lia. reflexivity.
  - replace (S n - 501)%nat with (S (n - 501)) by lia.
    rewrite Nat.even_succ. unfold Nat.odd.
    by destruct (Nat.even (n - 501)).
Qed.

Lemma residues_visit_all (j : nat) :
  (fun k : nat => Z.of_nat (j + k) mod 47) <$> seq 0 47 ≡ₚ Z.of_nat <$> seq 0 47.
Proof.
  apply NoDup_Permutation.
  - apply NoDup_fmap_2_strong; [|apply NoDup_seq].
    intros x y Hx Hy Heq. apply elem_of_seq in Hx, Hy.
    revert Heq. Z.div_mod_to_equations. lia.
  - apply NoDup_fmap_2; [apply Nat2Z.inj'|apply NoDup_seq].
  - intros x. rewrite !list_elem_of_fmap. split.
    + intros (k & -> & Hk). exists (Z.to_nat (Z.of_nat (j + k) mod 47)).
      split; [|apply elem_of_seq]; Z.div_mod_to_equations; lia.
    + intros (s & -> & Hs). apply elem_of_seq in Hs.
      exists (Z.to_nat ((Z.of_nat s - Z.of_nat j) mod 47)).
      split; [|apply elem_of_seq]; Z.div_mod_to_equations; lia.
Qed.

Section Sequencer.
Variable channel_value : Z -> Z.

Lemma send_normal_packet_exec w :
  send_normal_packet channel_value w =
  Done tt (mkWorld (drv w)
             (radio w ++
              [EvStrobe CC2500_SIDLE; EvStrobe CC2500_SFRX;
               EvGpioSet RADIO_PACTL; EvStrobe CC2500_SFTX;
               EvWriteFifo 0x7F (take 30 (normal_packet channel_value (drv w)));
               EvStrobe CC2500_STX])
             (timers w ++ [(6, cb_start_receive)])).
Proof.
  unfold send_normal_packet. run_M. rewrite <- !app_assoc. reflexivity.
Qed.

Lemma pack_loop_body_length st i :
  length (pack_loop_body channel_value st i).2 = length st.2.
Proof.
  unfold pack_loop_body, pack_pair. cbn [snd]. by rewrite !length_insert.
Qed.

Lemma normal_packet_ok d : frame_ok (normal_packet channel_value d).
Proof.
  unfold normal_packet. apply store_crc_ok. cbn [fold_left].
  rewrite !pack_loop_body_length. cbn [snd]. rewrite !length_insert. reflexivity.
Qed.

Lemma callback_frames cb w w' :
  callback_body channel_value cb w = Done tt w' ->
  emitted_frames (radio w') = emitted_frames (radio w) ++ frames_of channel_value cb (drv w).
Proof.
  destruct cb; cbn [callback_body frames_of]; intros H.
  - rewrite send_bind_packet_exec in H.
    rewrite take_ge in H by (by rewrite (proj1 (bind_packet_ok _))).
    injection H as <-. cbn [radio]. rewrite emitted_frames_app. reflexivity.
  - rewrite send_normal_packet_exec in H.
    rewrite take_ge in H by (by rewrite (proj1 (normal_packet_ok _))).
    injection H as <-. cbn [radio]. rewrite emitted_frames_app. reflexivity.
  - apply start_receive_done in H as (cal & hop & _ & _ & ->).
    cbn [radio]. rewrite emitted_frames_app. cbn. by rewrite app_nil_r.
Qed.

(** C2. Every frame the driver writes to the TX FIFO, bind or normal, has
    exactly 30 bytes, and its last two bytes are the CRC-16 of [calc_crc]
    over bytes 3..27 (25 bytes), high byte first. *)
Theorem emitted_frames_ok cb w w' :
  callback_body channel_value cb w = Done tt w' ->
  emitted_frames (radio w') = emitted_frames (radio w) ++ frames_of channel_value cb (drv w) /\
  Forall frame_ok (frames_of channel_value cb (drv w)) /\
  (cb <> cb_start_receive -> length (frames_of channel_value cb (drv w)) = 1%nat).
Proof.
  intros H. split; [by apply callback_frames|]. split.
  - destruct cb; cbn [frames_of].
    + apply Forall_singleton, bind_packet_ok.
    + apply Forall_singleton, normal_packet_ok.
    + constructor.
  - by destruct cb.
Qed.

Lemma callback_keeps_chanskip cb w w' :
  callback_body channel_value cb w = Done tt w' ->
  chanskip (drv w') = chanskip (drv w).
Proof.
  destruct cb; cbn [callback_body]; intros H.
  - rewrite send_bind_packet_exec in H. by injection H as <-.
  - rewrite send_normal_packet_exec in H. by injection H as <-.
  - apply start_receive_done in H as (cal & hop & _ & _ & ->). reflexivity.
Qed.

(** What one step does to a session. *)
Lemma session_step n w w' :
  session_at n w -> step channel_value w w' -> session_at (S n) w'.
Proof.
  intros (Hcal & Hhop & Hskip & Hbc & Hch & ms0 & Ht) Hstep.
  destruct Hstep as [w pre ms cb post w' Hq Hrun].
  rewrite Ht in Hq. apply single_pending in Hq as (-> & [= -> ->] & ->).
  cbn [app] in Hrun. unfold session_at. rewrite pending_at_succ.
  unfold pending_at in *.
  destruct (Nat.leb_spec n 500) as [Hn | Hn].
  - (* a bind frame *)
    cbn [callback_body] in Hrun. rewrite send_bind_packet_exec in Hrun.
    injection Hrun as <-. simpl_session.
    rewrite Hbc, Hch. rewrite Nat.min_l by lia.
    rewrite (u16_small (Z.of_nat n + 1)) by lia.
    rewrite !half_early by lia.
    repeat split; try done; [lia|].
    exists 9. destruct (Nat.leb_spec (S n) 500) as [Hs | Hs];
      destruct (Z.gtb_spec (Z.of_nat n + 1) 500); try lia; reflexivity.
  - destruct (Nat.even (n - 501)) eqn:Heven.
    + (* a normal frame *)
      cbn [callback_body] in Hrun. rewrite send_normal_packet_exec in Hrun.
      injection Hrun as <-. simpl_session.
      replace (S n - 501)%nat with (S (n - 501)) by lia.
      rewrite even_half by done. rewrite Hbc, Hch.
      repeat split; try done; [lia | by exists 6].
    + (* a receive window *)
      cbn [callback_body] in Hrun.
      apply start_receive_done in Hrun as (cal & hop & _ & _ & ->).
      simpl_session.
      replace (S n - 501)%nat with (S (n - 501)) by lia.
      rewrite odd_half by done. rewrite Hbc, Hch, Hskip.
      repeat split; try done; [lia | | by exists 3].
      unfold u8. rewrite Nat2Z.inj_succ. Z.div_mod_to_equations. lia.
Qed.

(** A session never stops: its pending callback returns. *)
Lemma session_tick n w :
  session_at n w -> exists w', tick channel_value w = Some w'.
Proof.
  intros (Hcal & Hhop & Hskip & Hbc & Hch & ms0 & Ht).
  unfold tick. rewrite Ht. destruct (pending_at n); cbn [callback_body].
  - rewrite send_bind_packet_exec. by eexists.
  - rewrite send_normal_packet_exec. by eexists.
  - set (w1 := mkWorld (drv w) (radio w) []).
    set (c := u8 ((channr (drv w1) + chanskip (drv w1)) mod 47)).
    assert (Hc : (Z.to_nat c < 47)%nat).
    { unfold c, u8. Z.div_mod_to_equations. lia. }
    destruct (lookup_lt_is_Some_2 (calData (drv w1)) (Z.to_nat c)) as [cal Hc1];
      [cbn; by rewrite Hcal|].
    destruct (lookup_lt_is_Some_2 (bindHopData (drv w1)) (Z.to_nat c))
      as [hop Hc2]; [cbn; by rewrite Hhop|].
    rewrite (start_receive_exec cal hop w1 Hc1 Hc2). by eexists.
Qed.

Lemma tick_step w w' : tick channel_value w = Some w' -> step channel_value w w'.
Proof.
  unfold tick. destruct (timers w) as [|[ms cb] rest] eqn:Ht; [discriminate|].
  destruct (callback_body channel_value cb _) as [[] w1| |] eqn:Hrun;
    try discriminate.
  intros [= <-]. by apply (step_fire channel_value w [] ms cb rest w1).
Qed.

Lemma run_nsteps n : forall w w',
  run channel_value n w = Some w' -> nsteps (step channel_value) n w w'.
Proof.
  induction n as [|n IH]; intros w w'; cbn [run].
  - intros [= <-]. constructor.
  - destruct (tick channel_value w) as [w1|] eqn:Htick; [|discriminate].
    intros Hrun. apply tick_step in Htick.
    by apply (nsteps_l _ _ _ w1); [|apply IH].
Qed.

Lemma session_nsteps n : forall m w w',
  session_at m w -> nsteps (step channel_value) n w w' ->
  session_at (m + n) w'.
Proof.
  induction n as [|n IH]; intros m w w' Hs Hn.
  - inversion Hn; subst.
    by rewrite Nat.add_0_r.
  - inversion Hn as [|? ? w1 ? Hst Hrest]; subst.
    replace (m + S n)%nat with (S m + n)%nat by lia.
    apply (IH (S m) w1); [by apply (session_step m w)|done].
Qed.

Lemma session_run n : forall m w,
  session_at m w -> exists w', run channel_value n w = Some w'.
Proof.
  induction n as [|n IH]; intros m w Hs; cbn [run]; [by eexists|].
  destruct (session_tick m w Hs) as [w1 Htick]. rewrite Htick.
  apply (IH (S m)). apply (session_step m w); [done|by apply tick_step].
Qed.

Variable chip : list event -> Z -> Z.

Lemma session_reached fuel use_dsm2 w0 n w :
  boot chip fuel use_dsm2 power_on = Done tt w0 ->
  nsteps (step channel_value) n w0 w -> session_at n w.
Proof.
  intros Hboot Hn. apply boot_done, session_boot in Hboot.
  exact (session_nsteps n 0 w0 w Hboot Hn).
Qed.

Lemma session_goes_on fuel use_dsm2 w0 n :
  boot chip fuel use_dsm2 power_on = Done tt w0 ->
  exists w, run channel_value n w0 = Some w /\
            nsteps (step channel_value) n w0 w.
Proof.
  intros Hboot. apply boot_done, session_boot in Hboot.
  destruct (session_run n 0 w0 Hboot) as [w Hw].
  exists w. split; [done | by apply run_nsteps].
Qed.

Lemma hop_of_cycle_spec fuel use_dsm2 w0 c :
  boot chip fuel use_dsm2 power_on = Done tt w0 ->
  hop_of_cycle channel_value w0 c = Some (Z.of_nat c mod 47).
Proof.
  intros Hboot. unfold hop_of_cycle.
  destruct (session_goes_on fuel use_dsm2 w0 (501 + 2 * c) Hboot)
    as (w & Hrun & Hn).
  rewrite Hrun. cbn [fmap option_fmap option_map]. f_equal.
  destruct (session_reached fuel use_dsm2 w0 _ w Hboot Hn)
    as (_ & _ & _ & _ & Hch & _).
  rewrite Hch. do 2 f_equal.
  replace (501 + 2 * c - 501)%nat with (c * 2)%nat by lia.
  apply Nat.div_mul. lia.
Qed.

(** C8. After bring-up, whatever the number of steps, exactly one callback
    is pending. It is the bind step for the first 501 steps; the bind step
    that takes the counter past 500 schedules the normal-frame transmit,
    and from then on transmit and receive window take turns, without end:
    every number of steps can be run. *)
Theorem sequencer_cadence fuel use_dsm2 w0 :
  boot chip fuel use_dsm2 power_on = Done tt w0 ->
  (forall w,
     timers (after send_bind_packet w) =
     timers w ++
     [(9, if u16 (bindcount (drv w) + 1) >? 500 then cb_send_normal_packet
          else cb_send_bind_packet)]) /\
  (forall n, exists w, nsteps (step channel_value) n w0 w) /\
  (forall n w,
     nsteps (step channel_value) n w0 w ->
     (exists ms, timers w = [(ms, pending_at n)]) /\
     bindcount (drv w) = Z.of_nat (n `min` 501)) /\
  (forall n, pending_at n <> cb_send_bind_packet ->
             pending_at (S n) <> pending_at n /\
             pending_at (S n) <> cb_send_bind_packet).
Proof.
  intros Hboot. split; [|split; [|split]].
  - intros w. by rewrite after_send_bind_packet.
  - intros n. destruct (session_goes_on fuel use_dsm2 w0 n Hboot) as (w & _ & H).
    by exists w.
  - intros n w Hn.
    destruct (session_reached fuel use_dsm2 w0 n w Hboot Hn)
      as (_ & _ & _ & Hbc & _ & Ht).
    done.
  - intros n Hp. rewrite pending_at_succ.
    destruct (pending_at n); [done| |]; split; discriminate.
Qed.

(** C9. The hop index starts at 0; in every state the sequencer reaches
    it is below 47 and inside both the calibration and the hopping table,
    no step runs out of an array's bounds, and a receive-window step sets
    it to (channr + chanskip) mod 47. *)
Theorem channr_in_bounds fuel use_dsm2 w0 w :
  boot chip fuel use_dsm2 power_on = Done tt w0 ->
  rtc (step channel_value) w0 w ->
  channr (drv w0) = 0 /\
  0 <= channr (drv w) < 47 /\
  is_Some (calData (drv w) !! Z.to_nat (channr (drv w))) /\
  is_Some (bindHopData (drv w) !! Z.to_nat (channr (drv w))) /\
  (exists w', step channel_value w w') /\
  (forall w1 w2, start_receive w1 = Done tt w2 ->
     channr (drv w2) = (channr (drv w1) + chanskip (drv w1)) mod 47 /\
     is_Some (calData (drv w1) !! Z.to_nat (channr (drv w2))) /\
     is_Some (bindHopData (drv w1) !! Z.to_nat (channr (drv w2)))).
Proof.
  intros Hboot Hrtc.
  apply rtc_nsteps_1 in Hrtc as [n Hn].
  pose proof (session_reached fuel use_dsm2 w0 n w Hboot Hn) as Hs.
  pose proof (session_reached fuel use_dsm2 w0 0 w0 Hboot (nsteps_O _ _))
    as (_ & _ & _ & _ & Hch0 & _).
  destruct (session_tick n w Hs) as [w' Htick].
  destruct Hs as (Hcal & Hhop & _ & _ & Hch & _).
  assert (Hr : 0 <= channr (drv w) < 47).
  { rewrite Hch. apply Z.mod_pos_bound. lia. }
  split; [exact Hch0|]. split; [exact Hr|].
  split; [apply lookup_lt_is_Some_2; rewrite Hcal; unfold NUM_CHANNELS; lia|].
  split; [apply lookup_lt_is_Some_2; rewrite Hhop; unfold NUM_CHANNELS; lia|].
  split; [exists w'; by apply tick_step|].
  intros w1 w2 H. apply start_receive_done in H as (cal & hop & Hc1 & Hc2 & ->).
  cbn [drv channr set_channr].
  rewrite (u8_small ((channr (drv w1) + chanskip (drv w1)) mod 47)) in *
    by (Z.div_mod_to_equations; lia).
  split; [reflexivity|]. split; by eexists.
Qed.

(** C10. Bring-up sets the hop skip to 1 and no callback of the sequencer
    changes it, so in every reachable state it is 1 and a receive-window
    step moves the hop index to (channr + 1) mod 47; the hop indices of
    any 47 consecutive transmit/receive cycles are the 47 slots 0..46,
    each exactly once. *)
Theorem chanskip_is_one fuel use_dsm2 w0 :
  boot chip fuel use_dsm2 power_on = Done tt w0 ->
  chanskip (drv w0) = 1 /\
  (forall cb w w', callback_body channel_value cb w = Done tt w' ->
                   chanskip (drv w') = chanskip (drv w)) /\
  (forall w, rtc (step channel_value) w0 w ->
     chanskip (drv w) = 1 /\
     forall w', start_receive w = Done tt w' ->
                channr (drv w') = (channr (drv w) + 1) mod 47) /\
  (forall j : nat,
     (fun k => hop_of_cycle channel_value w0 (j + k)) <$> seq 0 47 ≡ₚ
     (fun s => Some (Z.of_nat s)) <$> seq 0 47).
Proof.
  intros Hboot.
  assert (Hskip : forall w, rtc (step channel_value) w0 w -> chanskip (drv w) = 1).
  { intros w Hrtc. apply rtc_nsteps_1 in Hrtc as [n Hn].
    by destruct (session_reached fuel use_dsm2 w0 n w Hboot Hn)
      as (_ & _ & Hs & _). }
  split; [by apply Hskip|]. split; [apply callback_keeps_chanskip|]. split.
  - intros w Hrtc. split; [by apply Hskip|].
    intros w' H. apply start_receive_done in H as (cal & hop & _ & _ & ->).
    cbn [drv channr set_channr]. rewrite (Hskip w Hrtc).
    apply u8_small. Z.div_mod_to_equations. lia.
  - intros j.
    rewrite (list_fmap_ext (fun k => hop_of_cycle channel_value w0 (j + k))
               (fun k => Some (Z.of_nat (j + k) mod 47)) (seq 0 47))
      by (intros; by apply (hop_of_cycle_spec fuel use_dsm2)).
    rewrite (list_fmap_compose (fun k => Z.of_nat (j + k) mod 47) Some).
    rewrite (list_fmap_compose Z.of_nat Some).
    by rewrite residues_visit_all.
Qed.

End Sequencer.

(** ** The properties at work on a concrete bring-up *)

Lemma ready_chip_identifies : identifies ready_chip.
Proof. intros tr. split; reflexivity. Qed.

Lemma boot_ready : boot ready_chip 1 false power_on = Done tt booted_world.
Proof. vm_compute. reflexivity. Qed.

Lemma setup_hopping_table_clean_witness :
  clean_table (bindHopData (setup_hopping_table
                              (set_bindTxId (15, 20) power_on_driver))) = true /\
  clean_table (bindHopData (drv booted_world)) = true.
Proof.
  destruct (setup_hopping_table_clean
              (set_bindTxId (15, 20) power_on_driver)
              eq_refl ltac:(cbn; lia))
    as [(_ & _ & _ & _ & Hclean) Hboot].
  split.
  - apply Hclean. vm_compute. discriminate.
  - apply (Hboot ready_chip 1%nat false booted_world boot_ready).
Defined.

Lemma emitted_frames_ok_witness :
  callback_body example_inputs cb_send_normal_packet booted_world =
    Done tt (after (callback_body example_inputs cb_send_normal_packet)
                   booted_world) /\
  Forall frame_ok
         (frames_of example_inputs cb_send_normal_packet (drv booted_world)).
Proof.
  assert (H : callback_body example_inputs cb_send_normal_packet booted_world
              = Done tt (after (callback_body example_inputs
                                  cb_send_normal_packet) booted_world))
    by (vm_compute; reflexivity).
  split; [exact H|].
  exact (proj1 (proj2 (emitted_frames_ok example_inputs cb_send_normal_packet
                         booted_world _ H))).
Defined.

Lemma sequencer_cadence_witness :
  boot ready_chip 1 false power_on = Done tt booted_world /\
  nsteps (step example_inputs) 501 booted_world (world_after 501) /\
  (exists ms, timers (world_after 501) = [(ms, cb_send_normal_packet)]) /\
  bindcount (drv (world_after 501)) = 501.
Proof.
  assert (Hn : nsteps (step example_inputs) 501 booted_world (world_after 501)).
  { apply run_nsteps. unfold world_after.
    destruct (run example_inputs 501 booted_world) eqn:E; [reflexivity|].
    exfalso. revert E. vm_compute. discriminate. }
  destruct (sequencer_cadence example_inputs ready_chip 1 false booted_world
              boot_ready) as (_ & _ & H & _).
  split; [exact boot_ready|]. split; [exact Hn|].
  exact (H 501%nat (world_after 501) Hn).
Defined.

Lemma channr_in_bounds_witness :
  boot ready_chip 1 false power_on = Done tt booted_world /\
  rtc (step example_inputs) booted_world (world_after 505) /\
  0 <= channr (drv (world_after 505)) < 47.
Proof.
  assert (Hr : rtc (step example_inputs) booted_world (world_after 505)).
  { apply (rtc_nsteps_2 505). apply run_nsteps. unfold world_after.
    destruct (run example_inputs 505 booted_world) eqn:E; [reflexivity|].
    exfalso. revert E. vm_compute. discriminate. }
  split; [exact boot_ready|]. split; [exact Hr|].
  exact (proj1 (proj2 (channr_in_bounds example_inputs ready_chip 1 false
                         booted_world (world_after 505) boot_ready Hr))).
Defined.

Lemma chanskip_is_one_witness :
  boot ready_chip 1 false power_on = Done tt booted_world /\
  chanskip (drv booted_world) = 1.
Proof.
  split; [exact boot_ready|].
  exact (proj1 (chanskip_is_one example_inputs ready_chip 1 false
                  booted_world boot_ready)).
Defined.

(** ** Checksum *)

Lemma land_lxor_distr a b m :
  Z.land (Z.lxor a b) m = Z.lxor (Z.land a m) (Z.land b m).
Proof.
  apply Z.bits_inj'. intros n Hn.
  rewrite !Z.lxor_spec, !Z.land_spec, !Z.lxor_spec.
  destruct (Z.testbit a n), (Z.testbit b n), (Z.testbit m n); reflexivity.
Qed.

Lemma lxor_swap a b c d :
  Z.lxor (Z.lxor a b) (Z.lxor c d) = Z.lxor (Z.lxor a c) (Z.lxor b d).
Proof.
  apply Z.bits_inj'. intros n Hn. rewrite !Z.lxor_spec.
  destruct (Z.testbit a n), (Z.testbit b n), (Z.testbit c n), (Z.testbit d n);
    reflexivity.
Qed.

Lemma crc16_reflected_bit_lxor a b :
  crc16_reflected_bit (Z.lxor a b) =
  Z.lxor (crc16_reflected_bit a) (crc16_reflected_bit b).
Proof.
  unfold crc16_reflected_bit. rewrite Z.lxor_spec, Z.shiftr_lxor.
  destruct (Z.testbit a 0), (Z.testbit b 0); cbn [xorb];
    apply Z.bits_inj'; intros n Hn; rewrite !Z.lxor_spec;
    destruct (Z.testbit (Z.shiftr a 1) n), (Z.testbit (Z.shiftr b 1) n),
      (Z.testbit 33800 n); reflexivity.
Qed.

Lemma crc16_reflected_iter_lxor k a b :
  Nat.iter k crc16_reflected_bit (Z.lxor a b) =
  Z.lxor (Nat.iter k crc16_reflected_bit a) (Nat.iter k crc16_reflected_bit b).
Proof.
  induction k as [|k IH]; [reflexivity|].
  rewrite !Nat.iter_succ, IH. apply crc16_reflected_bit_lxor.
Qed.

Lemma land_255_byte x : 0 <= Z.land x 0xFF < 256.
Proof.
  change 0xFF with (Z.ones 8). rewrite Z.land_ones by lia.
  apply Z.mod_pos_bound. lia.
Qed.

Lemma CRCTable_at_reference i :
  0 <= i < 256 -> CRCTable_at i = crc16_reflected_byte i.
Proof.
  intros Hi. unfold CRCTable_at.
  assert (E : CRCTable = crc16_reflected_table) by (vm_compute; reflexivity).
  rewrite E. unfold crc16_reflected_table. rewrite list_lookup_fmap.
  rewrite (lookup_seq_lt 0 256 (Z.to_nat i)) by lia.
  cbn [fmap option_fmap option_map default].
  change (0 + Z.to_nat i)%nat with (Z.to_nat i). by rewrite Z2Nat.id by lia.
Qed.

(** The table is linear over XOR of byte indices. *)
Lemma CRCTable_at_lxor x y :
  CRCTable_at (Z.land (Z.lxor x y) 0xFF) =
  Z.lxor (CRCTable_at (Z.land x 0xFF)) (CRCTable_at (Z.land y 0xFF)).
Proof.
  rewrite !CRCTable_at_reference by apply land_255_byte.
  unfold crc16_reflected_byte. rewrite !Z.lxor_0_l.
  rewrite land_lxor_distr. apply crc16_reflected_iter_lxor.
Qed.

Lemma u8_land z : u8 z = Z.land z 0xFF.
Proof. unfold u8. change 0xFF with (Z.ones 8). by rewrite Z.land_ones. Qed.

Lemma u16_land z : u16 z = Z.land z 0xFFFF.
Proof. unfold u16. change 0xFFFF with (Z.ones 16). by rewrite Z.land_ones. Qed.

(** One step of [calc_crc] is linear over XOR, in the running value and in
    the data byte. *)
Lemma calc_crc_step_lxor c1 c2 d1 d2 :
  calc_crc_step (Z.lxor c1 c2) (Z.lxor d1 d2) =
  Z.lxor (calc_crc_step c1 d1) (calc_crc_step c2 d2).
Proof.
  unfold calc_crc_step. rewrite !u16_land, !u8_land.
  replace (Z.lxor (Z.land (Z.shiftr (Z.lxor c1 c2) 8) 255) (Z.lxor d1 d2))
    with (Z.lxor (Z.lxor (Z.land (Z.shiftr c1 8) 255) d1)
                 (Z.lxor (Z.land (Z.shiftr c2 8) 255) d2))
    by (rewrite Z.shiftr_lxor, land_lxor_distr; apply lxor_swap).
  rewrite CRCTable_at_lxor, Z.shiftl_lxor, lxor_swap.
  apply land_lxor_distr.
Qed.

Lemma fold_calc_crc_lxor a : forall b c1 c2,
  length a = length b ->
  fold_left calc_crc_step (xor_bytes a b) (Z.lxor c1 c2) =
  Z.lxor (fold_left calc_crc_step a c1) (fold_left calc_crc_step b c2).
Proof.
  induction a as [|x a IH]; intros [|y b] c1 c2 Hlen; try discriminate.
  - reflexivity.
  - cbn [xor_bytes zip_with fold_left]. rewrite calc_crc_step_lxor.
    apply IH. by injection Hlen.
Qed.

Lemma take_xor_bytes n : forall a b,
  take n (xor_bytes a b) = xor_bytes (take n a) (take n b).
Proof.
  induction n as [|n IH]; intros [|x a] [|y b]; try reflexivity.
  cbn. f_equal. apply IH.
Qed.

(** X1. The checksum of the XOR of two messages of one length is the XOR of
    their checksums. *)
Theorem calc_crc_xor (a b : list Z) (len : nat) :
  length a = length b ->
  calc_crc (xor_bytes a b) len = Z.lxor (calc_crc a len) (calc_crc b len).
Proof.
  intros Hlen. unfold calc_crc. rewrite take_xor_bytes.
  rewrite <- (fold_calc_crc_lxor (take len a) (take len b) 0 0).
  - reflexivity.
  - rewrite !length_take. lia.
Qed.

Lemma calc_crc_xor_witness :
  calc_crc (xor_bytes [1; 2; 3] [0x10; 0x20; 0x30]) 3 =
  Z.lxor (calc_crc [1; 2; 3] 3) (calc_crc [0x10; 0x20; 0x30] 3).
Proof. apply (calc_crc_xor [1; 2; 3] [0x10; 0x20; 0x30] 3). reflexivity. Defined.

Lemma byte_seen_all e : 0 < e < 256 -> byte_seen e = true.
Proof.
  intros He.
  assert (H : forallb byte_seen (Z.of_nat <$> seq 1 255) = true)
    by (vm_compute; reflexivity).
  rewrite forallb_forall in H. apply H. apply list_elem_of_In.
  apply list_elem_of_fmap. exists (Z.to_nat e). split; [lia|].
  apply elem_of_seq. lia.
Qed.

Lemma fold_zero_run k : forall c,
  fold_left calc_crc_step (replicate k 0) c = zero_run k c.
Proof.
  induction k as [|k IH]; intros c; [reflexivity|].
  cbn [replicate fold_left]. rewrite IH. unfold zero_run.
  by rewrite Nat.iter_succ_r.
Qed.

Lemma xor_bytes_self s : xor_bytes s s = replicate (length s) 0.
Proof.
  induction s as [|x s IH]; [reflexivity|].
  cbn. by rewrite Z.lxor_nilpotent, <- IH.
Qed.

Lemma fold_calc_crc_differ s c1 c2 :
  Z.lxor (fold_left calc_crc_step s c1) (fold_left calc_crc_step s c2) =
  zero_run (length s) (Z.lxor c1 c2).
Proof.
  rewrite <- (fold_calc_crc_lxor s s c1 c2 eq_refl), xor_bytes_self.
  apply fold_zero_run.
Qed.

Lemma calc_crc_step_differ c a b :
  0 <= a < 256 -> 0 <= b < 256 -> a <> b ->
  exists e, 0 < e < 256 /\
    Z.lxor (calc_crc_step c a) (calc_crc_step c b) = calc_crc_step 0 e.
Proof.
  intros Ha Hb Hne. exists (Z.land (Z.lxor a b) 0xFF).
  assert (He : Z.land (Z.lxor a b) 0xFF = Z.lxor a b).
  { rewrite land_lxor_distr, <- !u8_land. by rewrite !u8_small. }
  split.
  - pose proof (land_255_byte (Z.lxor a b)) as Hr.
    assert (Z.lxor a b <> 0) by (intros H0; by apply Z.lxor_eq in H0).
    rewrite He in *. lia.
  - rewrite <- calc_crc_step_lxor, Z.lxor_nilpotent, He. reflexivity.
Qed.

(** Replacing one byte changes the running checksum, as long as at most
    24 bytes follow it. *)
Lemma fold_calc_crc_single j : forall m c a b,
  m !! j = Some a ->
  0 <= a < 256 -> 0 <= b < 256 -> a <> b ->
  (length m <= j + 25)%nat ->
  fold_left calc_crc_step (<[j := b]> m) c <> fold_left calc_crc_step m c.
Proof.
  induction j as [|j IH]; intros [|x m] c a b Hj Ha Hb Hne Hlen;
    try discriminate.
  - injection Hj as ->. cbn [insert list_insert fold_left]. intros Heq.
    apply Z.lxor_eq_0_iff in Heq. rewrite fold_calc_crc_differ in Heq.
    destruct (calc_crc_step_differ c b a Hb Ha ltac:(congruence))
      as (e & He & Hstep).
    rewrite Hstep in Heq.
    pose proof (byte_seen_all e He) as Hseen. unfold byte_seen in Hseen.
    rewrite forallb_forall in Hseen.
    specialize (Hseen (length m)). simpl in Hlen.
    rewrite Heq in Hseen. cbn in Hseen.
    assert (In (length m) (seq 0 25)) by (apply in_seq; lia).
    by specialize (Hseen ltac:(assumption)).
  - cbn [insert list_insert fold_left]. simpl in Hlen.
    apply (IH m _ a b); try done. cbn in Hj. lia.
Qed.

(** The two-byte pattern the checksum does not see. *)
Lemma fold_calc_crc_blind j : forall m c x y z,
  m !! j = Some x -> m !! S j = Some y -> m !! S (S j) = Some z ->
  fold_left calc_crc_step
            (<[S j := Z.lxor y 0xEC]> (<[j := Z.lxor x 0x29]> m)) c
  = fold_left calc_crc_step m c.
Proof.
  induction j as [|j IH]; intros m c x y z Hx Hy Hz.
  - destruct m as [|x0 [|y0 [|z0 s]]]; try discriminate.
    injection Hx as ->. injection Hy as ->. injection Hz as ->.
    cbn [insert list_insert fold_left]. f_equal.
    rewrite <- (Z.lxor_0_r c) at 1. rewrite <- (Z.lxor_0_r z) at 1.
    rewrite !calc_crc_step_lxor.
    replace (calc_crc_step (calc_crc_step (calc_crc_step 0 41) 236) 0)
      with 0 by (vm_compute; reflexivity).
    apply Z.lxor_0_r.
  - destruct m as [|h m]; [discriminate|].
    cbn [insert list_insert fold_left]. by apply (IH m _ x y z).
Qed.

Lemma frame_crc_range (q : list Z) :
  length q = 30%nat -> length (take 25 (drop 3 q)) = 25%nat.
Proof. intros H. rewrite length_take, length_drop. lia. Qed.

(** X2. A frame with one byte of the checked range 3..27 replaced by another
    byte no longer carries a matching trailer. *)
Theorem frame_single_byte_detected (q : list Z) (i : nat) (a b : Z) :
  frame_ok q -> (3 <= i <= 27)%nat -> q !! i = Some a ->
  0 <= a < 256 -> 0 <= b < 256 -> a <> b ->
  ~ frame_ok (<[i := b]> q).
Proof.
  intros (Hlen & hi & lo & H28 & H29 & _ & _ & Hcrc) Hi Ha Hra Hrb Hne
         (_ & hi' & lo' & H28' & H29' & _ & _ & Hcrc').
  rewrite list_lookup_insert_ne in H28' by lia.
  rewrite list_lookup_insert_ne in H29' by lia.
  assert (hi' = hi) by congruence. assert (lo' = lo) by congruence. subst.
  rewrite Hcrc in Hcrc'. revert Hcrc'. unfold calc_crc.
  rewrite !take_take. change (25 `min` 25)%nat with 25%nat.
  rewrite drop_insert_ge by lia. rewrite take_insert_lt by lia.
  intros Heq. symmetry in Heq. revert Heq.
  apply (fold_calc_crc_single (i - 3) _ 0 a b); try done.
  - rewrite lookup_take_lt by lia. rewrite lookup_drop.
    by replace (3 + (i - 3))%nat with i by lia.
  - rewrite frame_crc_range by done. lia.
Qed.

(** X3. Flipping the bits 0x29 of one byte and 0xEC of the next, anywhere in
    bytes 3..26, gives a different frame whose trailer still matches. *)
Theorem frame_two_byte_undetected (q : list Z) (i : nat) (x y : Z) :
  frame_ok q -> (3 <= i <= 25)%nat -> q !! i = Some x -> q !! S i = Some y ->
  let q' := <[S i := Z.lxor y 0xEC]> (<[i := Z.lxor x 0x29]> q) in
  frame_ok q' /\ q' <> q.
Proof.
  intros (Hlen & hi & lo & H28 & H29 & Hhi & Hlo & Hcrc) Hi Hx Hy q'.
  split.
  - split; [unfold q'; by rewrite !length_insert|].
    exists hi, lo. unfold q'.
    rewrite !list_lookup_insert_ne by lia.
    split; [done|]. split; [done|]. split; [done|]. split; [done|].
    rewrite Hcrc. unfold calc_crc.
    rewrite !take_take. change (25 `min` 25)%nat with 25%nat.
    rewrite !drop_insert_ge by lia. rewrite !take_insert_lt by lia.
    replace (S i - 3)%nat with (S (i - 3)) by lia.
    destruct (lookup_lt_is_Some_2 q (S (S i))) as [z Hz]; [lia|].
    symmetry. apply (fold_calc_crc_blind (i - 3) _ 0 x y z);
      rewrite lookup_take_lt by lia; rewrite lookup_drop.
    + by replace (3 + (i - 3))%nat with i by lia.
    + by replace (3 + S (i - 3))%nat with (S i) by lia.
    + by replace (3 + S (S (i - 3)))%nat with (S (S i)) by lia.
  - intros Heq. assert (Hq : q' !! i = Some x) by (by rewrite Heq).
    unfold q' in Hq. rewrite list_lookup_insert_ne in Hq by lia.
    rewrite list_lookup_insert_eq in Hq by lia.
    injection Hq as Hq. rewrite <- (Z.lxor_0_r x) in Hq at 2.
    apply Z.lxor_eq_0_iff in Hq. revert Hq.
    rewrite lxor_swap, Z.lxor_nilpotent. discriminate.
Qed.

(** X4. The length byte and the two identity bytes at the head of a frame are
    outside the checksum: whatever is put in bytes 0..2 of a well-formed
    frame, the frame stays well formed; a normal frame carries the
    identity in bytes 1 and 2, and from byte 3 on, trailer included, it is
    the same whatever the identity. *)
Theorem frame_header_unprotected (q : list Z) (i : nat) (b : Z) :
  frame_ok q -> (i < 3)%nat ->
  frame_ok (<[i := b]> q) /\
  forall cv id d,
    normal_packet cv d !! 1%nat = Some (bindTxId d).1 /\
    normal_packet cv d !! 2%nat = Some (bindTxId d).2 /\
    drop 3 (normal_packet cv (set_bindTxId id d)) = drop 3 (normal_packet cv d).
Proof.
  intros (Hlen & hi & lo & H28 & H29 & Hhi & Hlo & Hcrc) Hi. split.
  - split; [by rewrite length_insert|]. exists hi, lo.
    rewrite !list_lookup_insert_ne by lia.
    split; [done|]. split; [done|]. split; [done|]. split; [done|].
    by rewrite drop_insert_lt by lia.
  - intros cv id d. split; [reflexivity|]. split; reflexivity.
Qed.

Lemma frame_header_unprotected_witness :
  frame_ok (<[1%nat := 0x55]> (bind_packet power_on_driver)).
Proof.
  exact (proj1 (frame_header_unprotected (bind_packet power_on_driver) 1 0x55
                  (bind_packet_ok power_on_driver) ltac:(lia))).
Defined.

Lemma frame_single_byte_detected_witness :
  ~ frame_ok (<[5%nat := 1]> (bind_packet power_on_driver)).
Proof.
  apply (frame_single_byte_detected (bind_packet power_on_driver) 5 0 1);
    [apply bind_packet_ok | lia | reflexivity | lia | lia | lia].
Defined.

Lemma frame_two_byte_undetected_witness :
  frame_ok (<[6%nat := Z.lxor 0 0xEC]>
              (<[5%nat := Z.lxor 0 0x29]> (bind_packet power_on_driver))).
Proof.
  exact (proj1 (frame_two_byte_undetected (bind_packet power_on_driver) 5 0 0
                  (bind_packet_ok power_on_driver) ltac:(lia)
                  eq_refl eq_refl)).
Defined.

(** ** Hopping table, slot by slot *)

Lemma land7_range x : 0 <= Z.land x 0x07 < 8.
Proof.
  change 7 with (Z.ones 3). rewrite Z.land_ones by lia.
  apply Z.mod_pos_bound. lia.
Qed.

Lemma hop_loop_closed c0 sp n : forall a hop,
  0 <= c0 -> 0 <= sp ->
  let r := fold_left (hop_loop_body sp) (seq (S a) n) (walk_from c0 sp a, hop) in
  r.1 = walk_from c0 sp (a + n)%nat /\
  forall i, r.2 !! i =
            if decide ((a < i <= a + n)%nat /\ (i < length hop)%nat)
            then Some (stored_channel (walk_from c0 sp i)) else hop !! i.
Proof.
  induction n as [|n IH]; intros a hop Hc Hsp.
  - cbn. split; [by rewrite Nat.add_0_r|]. intros i.
    case_decide; [lia|done].
  - cbn [seq fold_left]. cbv zeta.
    assert (Hbody : hop_loop_body sp (walk_from c0 sp a, hop) (S a) =
                    (walk_from c0 sp (S a),
                     <[S a := stored_channel (walk_from c0 sp (S a))]> hop)).
    { unfold hop_loop_body. cbn [fst snd].
      assert (Hstep : u8 ((walk_from c0 sp a + sp) mod 235)
                      = walk_from c0 sp (S a)).
      { unfold walk_from. rewrite Zplus_mod_idemp_l, Nat2Z.inj_succ.
        rewrite u8_small by (Z.div_mod_to_equations; lia).
        f_equal. lia. }
      rewrite Hstep. do 2 f_equal. unfold stored_channel.
      destruct (reserved_channel (walk_from c0 sp (S a))); [|done].
      apply u8_small. unfold walk_from. Z.div_mod_to_equations. lia. }
    rewrite Hbody.
    destruct (IH (S a) (<[S a := stored_channel (walk_from c0 sp (S a))]> hop)
                 Hc Hsp) as [H1 H2].
    cbv zeta in H1, H2 |- *. split.
    + rewrite H1. f_equal. lia.
    + intros i. rewrite H2, length_insert.
      destruct (decide (i = S a)) as [-> | Hne].
      * rewrite (decide_False (P := (S a < S a <= _)%nat /\ _)) by lia.
        destruct (decide (S a < length hop)%nat).
        -- rewrite decide_True by lia. by apply list_lookup_insert_eq.
        -- rewrite decide_False by lia. by rewrite list_insert_ge by lia.
      * rewrite list_lookup_insert_ne by done.
        destruct (decide ((S a < i <= S a + n)%nat /\ (i < length hop)%nat)).
        -- by rewrite decide_True by lia.
        -- by rewrite decide_False by lia.
Qed.

(** Slot 0 is the seed; slot [i] of 1..46 is the channel of the walk at
    [i], stepped over if reserved. *)
Lemma hopping_table_lookup id hop i :
  length hop = NUM_CHANNELS ->
  hopping_table id hop !! i =
  if decide (i = 0%nat) then Some (Z.land id.1 0x07)
  else if decide (i < NUM_CHANNELS)%nat
       then Some (stored_channel (walk_channel id i))
       else None.
Proof.
  intros Hlen. unfold hopping_table.
  pose proof (land7_range id.1) as Hseed.
  rewrite (u8_small (Z.land id.1 7)) by lia.
  assert (Hsp : 0 <= filter_spacing id.2).
  { unfold filter_spacing, u8. repeat case_match; Z.div_mod_to_equations; lia. }
  pose proof (hop_loop_closed (Z.land id.1 7) (filter_spacing id.2)
                (NUM_CHANNELS - 1) 0 (<[0%nat := Z.land id.1 7]> hop)
                ltac:(lia) Hsp) as [_ H].
  cbn zeta in H.
  replace (walk_from (Z.land id.1 7) (filter_spacing id.2) 0)
    with (Z.land id.1 7) in H by (unfold walk_from; rewrite Z.mod_small; lia).
  rewrite H, length_insert, Hlen. unfold NUM_CHANNELS, walk_channel, walk_from.
  repeat case_decide; try lia; try done.
  - subst i. apply list_lookup_insert_eq. rewrite Hlen. unfold NUM_CHANNELS. lia.
  - rewrite list_lookup_insert_ne by lia. apply lookup_ge_None_2.
    rewrite Hlen. unfold NUM_CHANNELS. lia.
Qed.

(** X5. [setup_hopping_table] writes all 47 slots: the table it leaves does
    not depend on the one it finds, and running it twice changes nothing. *)
Theorem setup_hopping_table_overwrites (d : driver) (hop : list Z) :
  length (bindHopData d) = NUM_CHANNELS -> length hop = NUM_CHANNELS ->
  setup_hopping_table (set_bindHopData hop d) = setup_hopping_table d /\
  setup_hopping_table (setup_hopping_table d) = setup_hopping_table d.
Proof.
  intros Hd Hhop.
  assert (Hind : forall h1 h2, length h1 = NUM_CHANNELS ->
                               length h2 = NUM_CHANNELS ->
            hopping_table (bindTxId d) h1 = hopping_table (bindTxId d) h2).
  { intros h1 h2 H1 H2. apply list_eq. intros i.
    by rewrite !hopping_table_lookup. }
  assert (Hlen : length (hopping_table (bindTxId d) (bindHopData d))
                 = NUM_CHANNELS).
  { destruct (lookup_lt_is_Some (hopping_table (bindTxId d) (bindHopData d)) 46)
      as [H1 _].
    assert (~ is_Some (hopping_table (bindTxId d) (bindHopData d) !! 47%nat)).
    { rewrite hopping_table_lookup by done. cbn. by intros [? ?]. }
    rewrite lookup_lt_is_Some in H. unfold NUM_CHANNELS.
    assert (46 < length (hopping_table (bindTxId d) (bindHopData d)))%nat.
    { apply H1. rewrite hopping_table_lookup by done. cbn. by eexists. }
    lia. }
  split.
  - unfold setup_hopping_table, set_bindHopData.
    cbn [bindTxId bindHopData calData channr chanskip rxnum bindcount idx].
    by rewrite (Hind hop (bindHopData d)).
  - unfold setup_hopping_table, set_bindHopData.
    cbn [bindTxId bindHopData calData channr chanskip rxnum bindcount idx].
    by rewrite (Hind (hopping_table (bindTxId d) (bindHopData d))
                     (bindHopData d)).
Qed.

Lemma setup_hopping_table_overwrites_witness :
  length (bindHopData power_on_driver) = NUM_CHANNELS /\
  setup_hopping_table (setup_hopping_table power_on_driver)
  = setup_hopping_table power_on_driver.
Proof.
  split; [reflexivity|].
  exact (proj2 (setup_hopping_table_overwrites power_on_driver
                  (replicate 47 1) eq_refl eq_refl)).
Defined.

Lemma spacing_spreads_all s : 0 <= s < 256 -> spacing_spreads s = true.
Proof.
  intros Hs.
  assert (H : forallb spacing_spreads (Z.of_nat <$> seq 0 256) = true)
    by (vm_compute; reflexivity).
  rewrite forallb_forall in H. apply H. apply list_elem_of_In.
  apply list_elem_of_fmap. exists (Z.to_nat s). split; [lia|].
  apply elem_of_seq. lia.
Qed.

(** The walk never stands twice on one channel within the 47 slots. *)
Lemma walk_channel_inj id i j :
  0 <= id.2 < 256 -> (i < j < NUM_CHANNELS)%nat ->
  walk_channel id i <> walk_channel id j.
Proof.
  intros Hid Hij Heq.
  pose proof (spacing_spreads_all id.2 Hid) as H. unfold spacing_spreads in H.
  rewrite forallb_forall in H. specialize (H (j - i)%nat).
  assert (Hin : In (j - i)%nat (seq 1 46)).
  { apply in_seq. unfold NUM_CHANNELS in Hij. lia. }
  specialize (H Hin). apply negb_true_iff, Z.eqb_neq in H. apply H.
  unfold walk_channel in Heq.
  rewrite Nat2Z.inj_sub by lia. rewrite Z.mul_sub_distr_r.
  revert Heq. generalize (Z.of_nat i * filter_spacing id.2).
  generalize (Z.of_nat j * filter_spacing id.2). intros Y X.
  Z.div_mod_to_equations. lia.
Qed.

(** X6. Two slots of a generated table hold one channel only if the walk
    stood on a reserved channel at one of them; that does happen, as for
    the identity (0, 13). *)
Theorem hopping_table_repeats_only_reserved (id : Z * Z) (hop : list Z)
        (i j : nat) (v : Z) :
  length hop = NUM_CHANNELS -> 0 <= id.2 < 256 -> (i < j)%nat ->
  hopping_table id hop !! i = Some v -> hopping_table id hop !! j = Some v ->
  (reserved_channel (walk_channel id i) = true \/
   reserved_channel (walk_channel id j) = true) /\
  ~ NoDup (hopping_table (0, 13) hop) /\
  NoDup (hopping_table (15, 20) hop).
Proof.
  intros Hlen Hid Hij Hi Hj. split; [|split].
  - rewrite hopping_table_lookup in Hi, Hj by done.
    destruct (decide (j = 0%nat)); [lia|].
    destruct (decide (j < NUM_CHANNELS)%nat) as [Hjn|]; [|discriminate].
    injection Hj as Hj.
    pose proof (walk_channel_inj id i j Hid ltac:(lia)) as Hne.
    destruct (reserved_channel (walk_channel id j)) eqn:Hrj; [by right|].
    left. unfold stored_channel in Hj. rewrite Hrj in Hj.
    destruct (decide (i = 0%nat)) as [-> | Hi0].
    + injection Hi as Hi. exfalso. apply Hne. rewrite Hj, <- Hi.
      unfold walk_channel. cbn [Z.of_nat]. rewrite Z.mul_0_l, Z.add_0_r.
      pose proof (land7_range id.1). rewrite Z.mod_small; lia.
    + destruct (decide (i < NUM_CHANNELS)%nat); [|discriminate].
      injection Hi as Hi. unfold stored_channel in Hi.
      destruct (reserved_channel (walk_channel id i)); [done|]. congruence.
  - intros Hnd.
    assert (H1 : hopping_table (0, 13) hop !! 7%nat = Some 91).
    { rewrite hopping_table_lookup by done. reflexivity. }
    assert (H2 : hopping_table (0, 13) hop !! 25%nat = Some 91).
    { rewrite hopping_table_lookup by done. reflexivity. }
    pose proof (NoDup_lookup _ _ _ _ Hnd H1 H2). lia.
  - assert (Heq : hopping_table (15, 20) hop =
                  hopping_table (15, 20) (replicate NUM_CHANNELS 0)).
    { apply list_eq. intros k. by rewrite !hopping_table_lookup. }
    rewrite Heq. apply (bool_decide_unpack _). vm_compute. reflexivity.
Qed.

Lemma hopping_table_repeats_only_reserved_witness :
  reserved_channel (walk_channel (0, 13) 7) = true \/
  reserved_channel (walk_channel (0, 13) 25) = true.
Proof.
  exact (proj1 (hopping_table_repeats_only_reserved (0, 13)
                  (replicate 47 0) 7 25 91
                  eq_refl ltac:(cbn; lia) ltac:(lia) eq_refl eq_refl)).
Defined.

(** ** Transmit power and the ADC sampler *)

(** X7. [cc2500_SetPower] never reads outside its table: it returns for every
    byte, writing to PATABLE the table entry of the power, with every
    power above 7 taken as 7. *)
Theorem cc2500_SetPower_clamps (power : Z) (w : world) :
  0 <= power < 256 ->
  exists v,
    patable !! Z.to_nat (Z.min power 7) = Some v /\
    cc2500_SetPower power w =
    Done tt (mkWorld (drv w) (radio w ++ [EvWriteReg CC2500_3E_PATABLE v])
                     (timers w)) /\
    (7 <= power -> v = 0xFF).
Proof.
  intros Hp. unfold cc2500_SetPower.
  destruct (Z.gtb_spec power 7) as [Hgt | Hle].
  - exists 0xFF. rewrite Z.min_r by lia. repeat split; reflexivity.
  - rewrite Z.min_l by lia.
    destruct (lookup_lt_is_Some_2 patable (Z.to_nat power)) as [v Hv];
      [cbn; lia|].
    exists v. split; [done|]. split.
    + unfold mbind, M_bind, array_read. rewrite Hv. reflexivity.
    + intros H7. assert (power = 7) as -> by lia. vm_compute in Hv. congruence.
Qed.

Lemma cc2500_SetPower_clamps_witness :
  cc2500_SetPower 200 power_on =
  Done tt (mkWorld power_on_driver [EvWriteReg CC2500_3E_PATABLE 0xFF] []).
Proof.
  destruct (cc2500_SetPower_clamps 200 power_on ltac:(lia))
    as (v & _ & Hrun & Hv).
  rewrite Hrun, Hv by lia. reflexivity.
Defined.

Lemma adc_sample_range drl drh : 0 <= adc_sample drl drh < 65536.
Proof. apply u16_range. Qed.

(** For byte registers the sample is low byte plus 256 times high byte. *)
Lemma adc_sample_bytes drl drh :
  0 <= drl < 256 -> 0 <= drh < 256 -> adc_sample drl drh = drl + 256 * drh.
Proof.
  intros Hl Hh. unfold adc_sample. rewrite !u8_small by lia.
  rewrite lor_shiftl_add by lia. change (2 ^ 8) with 256.
  rewrite u16_small by lia. lia.
Qed.

Lemma lor_0x20 c : 0 <= c < 4 -> Z.lor 0x20 c = 0x20 + c.
Proof.
  intros Hc. assert (c = 0 \/ c = 1 \/ c = 2 \/ c = 3) as [-> | [-> | [-> | ->]]]
    by lia; reflexivity.
Qed.

Lemma adc_irq_ok drl drh s :
  adc_ok s ->
  exists s', adc_irq drl drh s = Some s' /\ adc_ok s' /\
             take_next s' = negb (take_next s) /\
             ADC_CSR s' = 0x20 + chan s'.
Proof.
  intros [Hlen Hch]. unfold adc_irq.
  destruct (take_next s) eqn:Htn.
  - rewrite decide_True by lia.
    assert (Hc : 0 <= u8 (Z.land (chan s + 1) (NUM_CHANS - 1)) < 4).
    { unfold NUM_CHANS. change (4 - 1) with (Z.ones 2).
      rewrite Z.land_ones by lia. unfold u8. Z.div_mod_to_equations. lia. }
    eexists. split; [reflexivity|]. split; [|split; [reflexivity|]].
    + split; cbn [values chan]; [by rewrite length_insert | exact Hc].
    + cbn [chan ADC_CSR]. rewrite (lor_0x20 _ Hc). apply u8_small. lia.
  - eexists. split; [reflexivity|]. split; [|split; [reflexivity|]].
    + split; cbn [values chan]; done.
    + cbn [chan ADC_CSR]. rewrite (lor_0x20 _ Hch). apply u8_small. lia.
Qed.

(** X8. Whatever the data registers read, the sampler never stores outside
    [values]: every run of interrupts returns, with the channel below 4,
    [take_next] flipped once per interrupt, and [ADC_CSR] selecting the
    channel the sampler is at; [adc_value] is inside [values] exactly
    for the channels below 4. *)
Theorem adc_irqs_keep_bounds (ins : list (Z * Z)) (s : adc) :
  adc_ok s ->
  exists s',
    adc_irqs ins s = Some s' /\ adc_ok s' /\
    take_next s' = xorb (take_next s) (Nat.odd (length ins)) /\
    (ins <> [] -> ADC_CSR s' = 0x20 + chan s') /\
    (forall c, 0 <= c -> is_Some (adc_value s' c) <-> c < 4).
Proof.
  revert s. induction ins as [|[drl drh] ins IH]; intros s Hok.
  - exists s. split; [reflexivity|]. split; [done|].
    split; [by destruct (take_next s)|]. split; [done|].
    intros c Hc. unfold adc_value. rewrite lookup_lt_is_Some.
    destruct Hok as [-> _]. lia.
  - destruct (adc_irq_ok drl drh s Hok) as (s1 & H1 & Hok1 & Htn1 & Hcsr1).
    destruct (IH s1 Hok1) as (s' & Hrun & Hok' & Htn' & Hcsr' & Hval).
    exists s'. cbn [adc_irqs]. rewrite H1. split; [done|]. split; [done|].
    split; [|split; [|done]].
    + rewrite Htn', Htn1. cbn [length]. rewrite Nat.odd_succ, <- Nat.negb_odd.
      by destruct (take_next s), (Nat.odd (length ins)).
    + intros _. destruct ins as [|i ins]; [|by apply Hcsr'].
      cbn in Hrun. by injection Hrun as <-.
Qed.

Lemma adc_irqs_keep_bounds_witness :
  adc_ok (adc_init adc_power_on) /\
  exists s', adc_irqs [(0x34, 0x02); (0x35, 0x02); (0x36, 0x02)]
                      (adc_init adc_power_on) = Some s' /\ adc_ok s'.
Proof.
  assert (H : adc_ok (adc_init adc_power_on)) by (split; [reflexivity | cbn; lia]).
  split; [exact H|].
  destruct (adc_irqs_keep_bounds [(0x34, 0x02); (0x35, 0x02); (0x36, 0x02)]
              (adc_init adc_power_on) H) as (s' & Hrun & Hok & _).
  by exists s'.
Defined.

(** X9. After a channel switch the first conversion is dropped and the second
    is stored: two interrupts from a state with [take_next] clear store
    the sample of the second under the current channel, where [adc_value]
    reads it back, leave the other channels alone and move on to the next
    channel, wrapping from 3 to 0. *)
Theorem adc_irq_pair (s : adc) (drl1 drh1 drl2 drh2 : Z) :
  adc_ok s -> take_next s = false ->
  exists s',
    adc_irqs [(drl1, drh1); (drl2, drh2)] s = Some s' /\
    adc_value s' (chan s) = Some (adc_sample drl2 drh2) /\
    (forall c, 0 <= c -> c <> chan s -> adc_value s' c = adc_value s c) /\
    chan s' = (chan s + 1) mod 4 /\
    take_next s' = false.
Proof.
  intros [Hlen Hch] Htn. unfold adc_irqs, adc_irq. rewrite Htn.
  cbn [take_next negb values chan]. rewrite decide_True by lia.
  eexists. split; [reflexivity|]. unfold adc_value. cbn [values chan take_next].
  split; [|split; [|split; [|reflexivity]]].
  - apply list_lookup_insert_eq. lia.
  - intros c Hc Hne. apply list_lookup_insert_ne. lia.
  - unfold NUM_CHANS, u8. change (4 - 1) with (Z.ones 2).
    rewrite Z.land_ones by lia. Z.div_mod_to_equations. lia.
Qed.

Lemma adc_irq_pair_witness :
  adc_ok (adc_init adc_power_on) /\
  take_next (adc_init adc_power_on) = false /\
  exists s', adc_irqs [(0xFF, 0x03); (0x34, 0x02)] (adc_init adc_power_on)
             = Some s' /\
             adc_value s' 0 = Some (adc_sample 0x34 0x02).
Proof.
  assert (H : adc_ok (adc_init adc_power_on)) by (split; [reflexivity | cbn; lia]).
  split; [exact H|]. split; [reflexivity|].
  destruct (adc_irq_pair (adc_init adc_power_on) 0xFF 0x03 0x34 0x02 H eq_refl)
    as (s' & Hrun & Hval & _).
  by exists s'.
Defined.

(** X10. Eight interrupts after [adc_init] fill the four channels in order
    with the samples of the second, fourth, sixth and eighth interrupt,
    and leave the sampler at channel 0 again. *)
Theorem adc_round_robin (i1 i2 i3 i4 i5 i6 i7 i8 : Z * Z) :
  adc_irqs [i1; i2; i3; i4; i5; i6; i7; i8] (adc_init adc_power_on) =
  Some (mkAdc 0 false
              [adc_sample i2.1 i2.2; adc_sample i4.1 i4.2;
               adc_sample i6.1 i6.2; adc_sample i8.1 i8.2]
              0x20).
Proof.
  destruct i1, i2, i3, i4, i5, i6, i7, i8. reflexivity.
Qed.

(** ** What the frames carry *)

Lemma unpack_pack_mod a b :
  0 <= a < 65536 -> 0 <= b < 65536 ->
  unpack_pair (pack_pair a b) = (a mod 4096, b mod 4096).
Proof.
  intros Ha Hb. rewrite (pack_pair_arith a b Ha Hb). unfold unpack_pair.
  change 0x0F with (Z.ones 4).
  rewrite Z.land_ones by lia. rewrite Z.shiftr_div_pow2 by lia.
  rewrite !lor_shiftl_add by (try split; Z.div_mod_to_equations; lia).
  change (2 ^ 8) with 256. change (2 ^ 4) with 16.
  rewrite pair_equal_spec; split; Z.div_mod_to_equations; lia.
Qed.

Lemma u16_mod_4096 z : u16 z mod 4096 = z mod 4096.
Proof. unfold u16. Z.div_mod_to_equations. lia. Qed.

(** X11. Every normal frame carries its eight channel values: undoing the
    documented layout on bytes 9+3k.. gives the values of channels 2k and
    2k+1 modulo 4096, whatever the statics. *)
Theorem normal_packet_channels (cv : Z -> Z) (d : driver) (k : nat) :
  (k < 4)%nat ->
  unpack_pair <$> channel_bytes (normal_packet cv d) k =
  Some (cv (2 * Z.of_nat k) mod 4096, cv (2 * Z.of_nat k + 1) mod 4096).
Proof.
  intros Hk.
  assert (Hb : channel_bytes (normal_packet cv d) k =
               Some (pack_pair (u16 (cv (2 * Z.of_nat k)))
                               (u16 (cv (2 * Z.of_nat k + 1))))).
  { destruct k as [|[|[|[|k]]]]; [reflexivity..|lia]. }
  rewrite Hb. cbn [fmap option_fmap option_map]. f_equal.
  rewrite unpack_pack_mod by apply u16_range.
  by rewrite !u16_mod_4096.
Qed.

Lemma normal_packet_channels_witness :
  unpack_pair <$> channel_bytes (normal_packet example_inputs power_on_driver) 0
  = Some (0xABC, 0x123).
Proof. apply (normal_packet_channels example_inputs power_on_driver 0). lia. Defined.

(** X12. Bytes 4 and 5 of a normal frame hold the hop index and the hop skip
    without loss while the hop index is below 64. *)
Theorem normal_packet_hop_fields (cv : Z -> Z) (d : driver) :
  0 <= channr d < 64 -> 0 <= chanskip d < 256 ->
  exists b4 b5,
    normal_packet cv d !! 4%nat = Some b4 /\
    normal_packet cv d !! 5%nat = Some b5 /\
    Z.land b4 0x3F = channr d /\
    Z.lor (Z.shiftr b4 6) (Z.shiftl b5 2) = chanskip d.
Proof.
  intros Hch Hsk. eexists _, _. split; [reflexivity|]. split; [reflexivity|].
  rewrite Z.lor_comm, lor_shiftl_add by lia.
  change 0x3F with (Z.ones 6). rewrite Z.land_ones by lia.
  rewrite !Z.shiftr_div_pow2 by lia. unfold u8.
  change (2 ^ 6) with 64. change (2 ^ 2) with 4.
  split; [Z.div_mod_to_equations; lia|].
  rewrite lor_shiftl_add by (try split; Z.div_mod_to_equations; lia).
  change (2 ^ 2) with 4. Z.div_mod_to_equations. lia.
Qed.

Lemma normal_packet_hop_fields_witness :
  exists b4 b5,
    normal_packet example_inputs (set_channr 46 configured_driver) !! 4%nat
      = Some b4 /\
    normal_packet example_inputs (set_channr 46 configured_driver) !! 5%nat
      = Some b5 /\
    Z.land b4 0x3F = 46 /\ Z.lor (Z.shiftr b4 6) (Z.shiftl b5 2) = 1.
Proof.
  apply (normal_packet_hop_fields example_inputs
           (set_channr 46 configured_driver)); cbn; lia.
Defined.

(** ** Bind frames *)

Lemma bind_packet_payload d i :
  0 <= i < 5 -> 0 <= idx d -> idx d + i < 47 ->
  bind_packet d !! Z.to_nat (6 + i) =
  Some (default 0 (bindHopData d !! Z.to_nat (idx d + i))).
Proof.
  intros Hi H0 Hlt.
  assert (Hc : i = 0 \/ i = 1 \/ i = 2 \/ i = 3 \/ i = 4) by lia.
  unfold bind_packet, store_crc. cbn [fold_left]. unfold bind_hop_body.
  destruct Hc as [-> | [-> | [-> | [-> | ->]]]];
    repeat match goal with
           | |- context [?a <? ?b] => destruct (Z.ltb_spec a b); try lia
           end;
    reflexivity.
Qed.

Lemma builds_keep_table n w :
  bindHopData (drv (Nat.iter n (after send_bind_packet) w)) = bindHopData (drv w).
Proof.
  induction n as [|n IH]; [reflexivity|].
  rewrite Nat.iter_succ, after_send_bind_packet. cbn. exact IH.
Qed.

(** X13. Ten bind frames in a row, from cursor 0, advertise the whole hopping
    table: entry [j] is byte 6 + j mod 5 of frame number j / 5, whose
    cursor byte is 5 * (j / 5). *)
Theorem bind_frames_advertise_table (w : world) (j : nat) :
  idx (drv w) = 0 -> length (bindHopData (drv w)) = NUM_CHANNELS ->
  (j < NUM_CHANNELS)%nat ->
  let frame := bind_packet (drv (Nat.iter (j / 5) (after send_bind_packet) w)) in
  frame !! (6 + j mod 5)%nat = bindHopData (drv w) !! j /\
  frame !! 5%nat = Some (5 * Z.of_nat (j / 5)).
Proof.
  intros H0 Hlen Hj frame. unfold NUM_CHANNELS in *.
  set (wk := Nat.iter (j / 5) (after send_bind_packet) w) in *.
  assert (Hidx : idx (drv wk) = 5 * Z.of_nat (j / 5)).
  { unfold wk. rewrite idx_after_builds, H0, advance_idx_cycle.
    apply Z.mod_small. pose proof (Nat.div_mod_eq j 5). lia. }
  assert (Htab : bindHopData (drv wk) = bindHopData (drv w))
    by apply builds_keep_table.
  pose proof (Nat.div_mod_eq j 5) as Hdm.
  pose proof (Nat.mod_upper_bound j 5 ltac:(lia)) as Hm.
  split.
  - pose proof (bind_packet_payload (drv wk) (Z.of_nat (j mod 5))) as Hp.
    rewrite Hidx, Htab in Hp.
    replace (Z.to_nat (6 + Z.of_nat (j mod 5))) with (6 + j mod 5)%nat in Hp by lia.
    replace (Z.to_nat (5 * Z.of_nat (j / 5) + Z.of_nat (j mod 5))) with j in Hp
      by lia.
    unfold frame. rewrite Hp by lia.
    destruct (lookup_lt_is_Some_2 (bindHopData (drv w)) j) as [v Hv]; [lia|].
    by rewrite Hv.
  - unfold frame. by rewrite bind_packet_cursor, Hidx.
Qed.

Lemma bind_frames_advertise_table_witness :
  idx (drv booted_world) = 0 /\
  length (bindHopData (drv booted_world)) = NUM_CHANNELS /\
  bind_packet (drv (Nat.iter 9 (after send_bind_packet) booted_world)) !! 7%nat
  = bindHopData (drv booted_world) !! 46%nat.
Proof.
  assert (H0 : idx (drv booted_world) = 0) by (vm_compute; reflexivity).
  assert (Hl : length (bindHopData (drv booted_world)) = NUM_CHANNELS)
    by (vm_compute; reflexivity).
  split; [exact H0|]. split; [exact Hl|].
  exact (proj1 (bind_frames_advertise_table booted_world 46 H0 Hl
                  ltac:(unfold NUM_CHANNELS; lia))).
Defined.

(** ** Timing and tuning of the sequencer *)

Lemma channr_writes_app tr1 tr2 :
  channr_writes (tr1 ++ tr2) = channr_writes tr1 ++ channr_writes tr2.
Proof. apply omap_app. Qed.

Lemma tuned_app tr evs :
  tuned (tr ++ evs) =
  match tuned evs with Some c => Some c | None => tuned tr end.
Proof. unfold tuned. rewrite channr_writes_app. apply last_app. Qed.

Lemma delay_at_succ n :
  delay_at (S n) =
  match pending_at n with
  | cb_send_bind_packet => 9
  | cb_send_normal_packet => 6
  | cb_start_receive => 3
  end.
Proof.
  unfold delay_at, pending_at. cbn [Nat.eqb].
  destruct (Nat.leb_spec n 500) as [Hn | Hn].
  - by rewrite (proj2 (Nat.leb_le (S n) 501)) by lia.
  - rewrite (proj2 (Nat.leb_gt (S n) 501)) by lia.
    replace (S n - 501)%nat with (S (n - 501)) by lia.
    rewrite Nat.even_succ, <- Nat.negb_even.
    by destruct (Nat.even (n - 501)).
Qed.

Section MoreSequencer.
Variable channel_value : Z -> Z.

(** In a session the step that runs is the one pending. *)
Lemma step_fires n w w' :
  session_at n w -> step channel_value w w' ->
  callback_body channel_value (pending_at n) (mkWorld (drv w) (radio w) [])
  = Done tt w'.
Proof.
  intros (_ & _ & _ & _ & _ & ms0 & Ht) Hstep.
  destruct Hstep as [w pre ms cb post w' Hq Hrun].
  rewrite Ht in Hq. apply single_pending in Hq as (-> & [= -> ->] & ->).
  exact Hrun.
Qed.

Lemma callback_keeps_tables cb w w' :
  callback_body channel_value cb w = Done tt w' ->
  calData (drv w') = calData (drv w) /\
  bindHopData (drv w') = bindHopData (drv w) /\
  bindTxId (drv w') = bindTxId (drv w) /\
  rxnum (drv w') = rxnum (drv w).
Proof.
  destruct cb; cbn [callback_body]; intros H.
  - rewrite send_bind_packet_exec in H. by injection H as <-.
  - rewrite send_normal_packet_exec in H. by injection H as <-.
  - apply start_receive_done in H as (cal & hop & _ & _ & ->). done.
Qed.

Lemma step_delay n w w' :
  session_at n w -> step channel_value w w' ->
  timers w' = [(delay_at (S n), pending_at (S n))].
Proof.
  intros Hs Hstep.
  pose proof (session_step channel_value n w w' Hs Hstep)
    as (_ & _ & _ & _ & _ & ms & Ht).
  pose proof (step_fires n w w' Hs Hstep) as Hrun.
  rewrite delay_at_succ. rewrite Ht. do 2 f_equal.
  destruct (pending_at n); cbn [callback_body] in Hrun.
  - rewrite send_bind_packet_exec in Hrun. injection Hrun as <-.
    cbn in Ht. congruence.
  - rewrite send_normal_packet_exec in Hrun. injection Hrun as <-.
    cbn in Ht. congruence.
  - apply start_receive_done in Hrun as (cal & hop & _ & _ & ->).
    cbn in Ht. congruence.
Qed.

Lemma step_tuned n w w' :
  session_at n w -> step channel_value w w' ->
  tuned (radio w') =
  match pending_at n with
  | cb_send_bind_packet => Some 0
  | cb_send_normal_packet => tuned (radio w)
  | cb_start_receive => bindHopData (drv w') !! Z.to_nat (channr (drv w'))
  end /\
  (pending_at n <> cb_start_receive -> channr (drv w') = channr (drv w)).
Proof.
  intros Hs Hstep. pose proof (step_fires n w w' Hs Hstep) as Hrun.
  destruct (pending_at n); cbn [callback_body] in Hrun.
  - rewrite send_bind_packet_exec in Hrun. injection Hrun as <-.
    cbn [radio drv]. rewrite tuned_app. done.
  - rewrite send_normal_packet_exec in Hrun. injection Hrun as <-.
    cbn [radio drv]. rewrite tuned_app. done.
  - apply start_receive_done in Hrun as (cal & hop & _ & Hhop & ->).
    cbn [radio drv]. rewrite tuned_app. split; [|done].
    cbn [set_channr bindHopData channr drv] in *. by rewrite Hhop.
Qed.

End MoreSequencer.

Lemma setChannel_done channel w w' :
  setChannel channel w = Done tt w' ->
  exists cal hop,
    calData (drv w) !! Z.to_nat channel = Some cal /\
    bindHopData (drv w) !! Z.to_nat channel = Some hop /\
    w' = mkWorld (drv w)
           (radio w ++
            [EvStrobe CC2500_SIDLE;
             EvWriteReg CC2500_23_FSCAL3 cal.1.1;
             EvWriteReg CC2500_24_FSCAL2 cal.1.2;
             EvWriteReg CC2500_25_FSCAL1 cal.2;
             EvWriteReg CC2500_0A_CHANNR hop])
           (timers w).
Proof.
  intros H.
  destruct (calData (drv w) !! Z.to_nat channel) as [cal|] eqn:Hcal;
    [destruct (bindHopData (drv w) !! Z.to_nat channel) as [hop|] eqn:Hhop|].
  - exists cal, hop. rewrite (setChannel_exec channel cal hop w Hcal Hhop) in H.
    by injection H as <-.
  - rewrite setChannel_fault in H by (by right). discriminate.
  - rewrite setChannel_fault in H by (by left). discriminate.
Qed.

Lemma tuned_at_succ n d d' :
  bindHopData d' = bindHopData d ->
  (pending_at n <> cb_start_receive -> channr d' = channr d) ->
  tuned_at (S n) d' =
  match pending_at n with
  | cb_send_bind_packet => Some 0
  | cb_send_normal_packet => tuned_at n d
  | cb_start_receive => bindHopData d' !! Z.to_nat (channr d')
  end.
Proof.
  intros Htab Hch. unfold tuned_at, pending_at in *. cbn [Nat.eqb].
  destruct (Nat.leb_spec n 500) as [Hn | Hn].
  - by rewrite (proj2 (Nat.leb_le (S n) 502)) by lia.
  - destruct (Nat.even (n - 501)) eqn:Heven.
    + rewrite (proj2 (Nat.eqb_neq n 0)) by lia.
      destruct (Nat.leb_spec n 502) as [Hle | Hgt].
      * assert (n = 501%nat) as ->.
        { destruct (decide (n = 502%nat)) as [-> |]; [discriminate Heven|lia]. }
        reflexivity.
      * rewrite (proj2 (Nat.leb_gt (S n) 502)) by lia.
        by rewrite Htab, Hch.
    + destruct (decide (n = 501%nat)) as [-> |]; [discriminate Heven|].
      by rewrite (proj2 (Nat.leb_gt (S n) 502)) by lia.
Qed.

Section AfterBoot.
Variable channel_value : Z -> Z.
Variable chip : list event -> Z -> Z.

Lemma boot_tuned fuel use_dsm2 w0 :
  boot chip fuel use_dsm2 power_on = Done tt w0 ->
  tuned (radio w0) = bindHopData (drv w0) !! 0%nat.
Proof.
  intros H. unfold boot in H.
  apply bind_done in H as ([] & w1 & _ & H). unfold radio_start_send in H.
  apply bind_done in H as ([] & w2 & H2 & H).
  apply setChannel_done in H2 as (cal & hop & _ & Hhop & ->).
  injection H as <-. cbn [radio drv]. rewrite tuned_app.
  change (Z.to_nat 0) with 0%nat in Hhop. by rewrite Hhop.
Qed.

(** X14. The sequencer keeps the cadence of the protocol: the first bind frame
    2 ms after bring-up, then a bind frame every 9 ms, and in the steady
    loop 6 ms from a frame to the receive window and 3 ms from there to
    the next frame, 9 ms from frame to frame again. *)
Theorem sequencer_delays fuel use_dsm2 w0 n w :
  boot chip fuel use_dsm2 power_on = Done tt w0 ->
  nsteps (step channel_value) n w0 w ->
  timers w = [(delay_at n, pending_at n)] /\
  ((501 < n)%nat -> delay_at n + delay_at (S n) = 9).
Proof.
  intros Hboot Hn. split.
  - destruct n as [|n].
    + inversion Hn; subst. by destruct (boot_done chip fuel use_dsm2 w Hboot).
    + apply nsteps_inv_r in Hn as (w1 & Hn1 & Hstep).
      apply (step_delay channel_value n w1 w); [|done].
      by apply (session_reached channel_value chip fuel use_dsm2 w0).
  - intros Hlate. destruct n as [|n]; [lia|]. rewrite !delay_at_succ.
    rewrite pending_at_succ. unfold pending_at.
    rewrite (proj2 (Nat.leb_gt n 500)) by lia.
    by destruct (Nat.even (n - 501)).
Qed.

(** X15. Bind frames go out on channel 0, and so does the first normal frame;
    from the first receive window on the chip is tuned to the hopping
    table entry of the hop index. *)
Theorem sequencer_tuned fuel use_dsm2 w0 n w :
  boot chip fuel use_dsm2 power_on = Done tt w0 ->
  nsteps (step channel_value) n w0 w ->
  tuned (radio w) = tuned_at n (drv w).
Proof.
  intros Hboot. revert w. induction n as [|n IH]; intros w Hn.
  - inversion Hn; subst. by apply (boot_tuned fuel use_dsm2).
  - apply nsteps_inv_r in Hn as (w1 & Hn1 & Hstep).
    pose proof (session_reached channel_value chip fuel use_dsm2 w0 n w1
                  Hboot Hn1) as Hs.
    destruct (step_tuned channel_value n w1 w Hs Hstep) as [Ht Hch].
    pose proof (step_fires channel_value n w1 w Hs Hstep) as Hrun.
    apply callback_keeps_tables in Hrun as (_ & Htab & _).
    cbn [drv] in Htab.
    rewrite (tuned_at_succ n (drv w1) (drv w) Htab Hch), Ht.
    destruct (pending_at n); try done. by apply IH.
Qed.

(** X16. After bring-up the identity, the hopping table and the calibration
    data never change again: no callback writes them, and in every state
    the sequencer reaches they are those bring-up left. *)
Theorem tables_frozen fuel use_dsm2 w0 w :
  boot chip fuel use_dsm2 power_on = Done tt w0 ->
  rtc (step channel_value) w0 w ->
  bindTxId (drv w) = (15, 20) /\
  bindHopData (drv w) = hopping_table (15, 20) (replicate NUM_CHANNELS 0) /\
  calData (drv w) = calData (drv w0) /\
  (forall cb w1 w2,
     callback_body channel_value cb w1 = Done tt w2 ->
     calData (drv w2) = calData (drv w1) /\
     bindHopData (drv w2) = bindHopData (drv w1) /\
     bindTxId (drv w2) = bindTxId (drv w1)).
Proof.
  intros Hboot Hrtc.
  assert (Hinv : calData (drv w) = calData (drv w0) /\
                 bindHopData (drv w) = bindHopData (drv w0) /\
                 bindTxId (drv w) = bindTxId (drv w0)).
  { revert w Hrtc. apply (rtc_ind_r _ w0); [done|].
    intros w1 w2 _ Hstep (IH1 & IH2 & IH3).
    destruct Hstep as [w1 pre ms cb post w2 _ Hrun].
    apply callback_keeps_tables in Hrun as (H1 & H2 & H3 & _).
    cbn [drv] in *. by rewrite H1, H2, H3. }
  destruct Hinv as (Hcal & Hhop & Hid).
  destruct (boot_done chip fuel use_dsm2 w0 Hboot) as [(cal & Hd & _) _].
  rewrite Hid, Hhop, Hd. split; [reflexivity|]. split; [reflexivity|].
  split; [by rewrite Hcal, Hd|].
  intros cb w1 w2 Hrun.
  by apply callback_keeps_tables in Hrun as (H1 & H2 & H3 & _).
Qed.

End AfterBoot.

Lemma steps_to_505 :
  nsteps (step example_inputs) 505 booted_world (world_after 505).
Proof.
  apply run_nsteps. unfold world_after.
  destruct (run example_inputs 505 booted_world) eqn:E; [reflexivity|].
  exfalso. revert E. vm_compute. discriminate.
Qed.

Lemma sequencer_delays_witness :
  boot ready_chip 1 false power_on = Done tt booted_world /\
  timers (world_after 505) = [(3, cb_send_normal_packet)].
Proof.
  split; [exact boot_ready|].
  exact (proj1 (sequencer_delays example_inputs ready_chip 1 false
                  booted_world 505 (world_after 505) boot_ready steps_to_505)).
Defined.

Lemma sequencer_tuned_witness :
  boot ready_chip 1 false power_on = Done tt booted_world /\
  tuned (radio (world_after 505)) = tuned_at 505 (drv (world_after 505)).
Proof.
  split; [exact boot_ready|].
  exact (sequencer_tuned example_inputs ready_chip 1 false
           booted_world 505 (world_after 505) boot_ready steps_to_505).
Defined.

Lemma tables_frozen_witness :
  boot ready_chip 1 false power_on = Done tt booted_world /\
  bindTxId (drv (world_after 505)) = (15, 20).
Proof.
  split; [exact boot_ready|].
  exact (proj1 (tables_frozen example_inputs ready_chip 1 false
                  booted_world (world_after 505) boot_ready
                  (rtc_nsteps_2 505 _ _ steps_to_505))).
Defined.

(** ** Bring-up traffic *)

Lemma channr_write_air : hears_air_only channr_write.
Proof.
  intros [] H; try done. left. cbn in H.
  destruct (Z.eqb_spec reg CC2500_0A_CHANNR) as [-> |]; [by eexists|done].
Qed.

Lemma fifo_frame_air : hears_air_only fifo_frame.
Proof. intros [] H; try done. right. by eexists _, _. Qed.

Lemma omap_snoc_None {B} (f : event -> option B) tr ev :
  f ev = None -> omap f (tr ++ [ev]) = omap f tr.
Proof. intros H. rewrite omap_app. simpl. rewrite H. apply app_nil_r. Qed.

Section Silent.
Context {B : Type} (f : event -> option B) (Hf : hears_air_only f).

Lemma silent_ret {A} (a : A) : silent f (mret a).
Proof. intros w a' w' H. by injection H as _ <-. Qed.

Lemma silent_bind {A C} (m : M A) (k : A -> M C) :
  silent f m -> (forall a, silent f (k a)) -> silent f (m ≫= k).
Proof.
  intros Hm Hk w b w'' H. apply bind_done in H as (a & w' & H1 & H2).
  by rewrite (Hk a _ _ _ H2), (Hm _ _ _ H1).
Qed.

Lemma silent_emit ev :
  (forall v, ev <> EvWriteReg CC2500_0A_CHANNR v) ->
  (forall r p, ev <> EvWriteFifo r p) ->
  silent f (emit ev).
Proof.
  intros H1 H2 w a w' H. injection H as _ <-. cbn [radio].
  apply omap_snoc_None. destruct (f ev) eqn:E; [|done].
  destruct (Hf ev) as [[v ->] | (r & p & ->)]; [congruence| |];
    [by destruct (H1 v) | by destruct (H2 r p)].
Qed.

Lemma silent_get_drv : silent f get_drv.
Proof. intros w a w' H. by injection H as _ <-. Qed.

Lemma silent_modify_drv g : silent f (modify_drv g).
Proof. intros w a w' H. by injection H as _ <-. Qed.

Lemma silent_array_read {A} (arr : list A) i : silent f (array_read arr i).
Proof.
  intros w a w' H. unfold array_read in H.
  destruct (arr !! Z.to_nat i); [|discriminate]. by injection H as _ <-.
Qed.

Lemma silent_for_each {A} (l : list A) (body : A -> M unit) :
  (forall x, x ∈ l -> silent f (body x)) -> silent f (for_each l body).
Proof.
  induction l as [|x l IH]; intros Hb; cbn [for_each].
  - apply silent_ret.
  - apply silent_bind; [apply Hb; by left|]. intros _. apply IH.
    intros y Hy. apply Hb. by right.
Qed.

Lemma silent_delay_ms ms : silent f (delay_ms ms).
Proof. by apply silent_emit. Qed.

Lemma silent_Strobe address : silent f (cc2500_Strobe address).
Proof. by apply silent_emit. Qed.

Lemma silent_gpio_config p m : silent f (gpio_config p m).
Proof. by apply silent_emit. Qed.

Lemma silent_gpio_set p : silent f (gpio_set p).
Proof. by apply silent_emit. Qed.

Lemma silent_gpio_clear p : silent f (gpio_clear p).
Proof. by apply silent_emit. Qed.

Lemma silent_WriteReg reg value :
  u8 (Z.lor reg CC2500_WRITE_SINGLE) <> CC2500_0A_CHANNR ->
  silent f (cc2500_WriteReg reg value).
Proof. intros Hne. apply silent_emit; [|done]. intros v [= H _]. done. Qed.

Lemma silent_ReadReg chip reg : silent f (cc2500_ReadReg chip reg).
Proof.
  intros w a w' H. injection H as _ <-. cbn [radio].
  apply omap_snoc_None.
  match goal with |- f ?ev = None => destruct (f ev) eqn:E; [|done];
    destruct (Hf ev ltac:(by rewrite E)) as [[v H] | (r & p & H)]; discriminate
  end.
Qed.

Lemma silent_wait_for_radio chip fuel : silent f (wait_for_radio chip fuel).
Proof.
  induction fuel as [|fuel IH]; cbn [wait_for_radio].
  - intros w a w' H. discriminate.
  - apply silent_bind; [apply silent_ReadReg|]. intros partnum.
    destruct (negb (partnum =? 128)).
    + apply silent_bind; [apply silent_delay_ms | intros _; exact IH].
    + apply silent_bind; [apply silent_ReadReg|]. intros version.
      destruct (negb (version =? 3)); [|apply silent_ret].
      apply silent_bind; [apply silent_delay_ms | intros _; exact IH].
Qed.

Lemma silent_Reset chip : silent f (cc2500_Reset chip).
Proof.
  unfold cc2500_Reset.
  apply silent_bind; [apply silent_Strobe|]. intros _.
  apply silent_bind; [apply silent_delay_ms|]. intros _.
  apply silent_bind; [apply silent_ReadReg|]. intros v. apply silent_ret.
Qed.

Lemma silent_radio_config :
  silent f (for_each radio_config (fun rv => cc2500_WriteReg rv.1 rv.2)).
Proof.
  apply silent_for_each. intros rv Hrv. apply silent_WriteReg.
  assert (H : forallb (fun rv => negb (u8 (Z.lor rv.1 CC2500_WRITE_SINGLE)
                                       =? CC2500_0A_CHANNR)) radio_config
              = true) by reflexivity.
  rewrite forallb_forall in H. apply list_elem_of_In in Hrv.
  specialize (H rv Hrv). by apply negb_true_iff, Z.eqb_neq in H.
Qed.

Lemma silent_initialiseData adr : silent f (initialiseData adr).
Proof.
  unfold initialiseData.
  apply silent_bind; [by apply silent_WriteReg|]. intros _.
  apply silent_bind; [by apply silent_WriteReg|]. intros _.
  apply silent_bind; [apply silent_get_drv|]. intros d.
  apply silent_bind; [by apply silent_WriteReg|]. intros _.
  apply silent_bind; [by apply silent_WriteReg|]. intros _.
  by apply silent_WriteReg.
Qed.

(** A calibration visit tunes the chip to the slot's channel and to
    nothing else. *)
Lemma calibrate_body_air chip i w w' :
  calibrate_body chip i w = Done tt w' ->
  exists hop, bindHopData (drv w) !! i = Some hop /\
    omap f (radio w') =
    omap f (radio w) ++ omap f [EvWriteReg CC2500_0A_CHANNR hop].
Proof.
  unfold calibrate_body. intros H.
  apply bind_done in H as ([] & w1 & H1 & H).
  apply silent_Strobe in H1 as E1.
  apply quiet_emit in H1 as [Hd1 _].
  apply bind_done in H as (d & w2 & H2 & H). injection H2 as <- <-.
  apply bind_done in H as (hop & w3 & H3 & H).
  unfold array_read in H3. rewrite Nat2Z.id in H3.
  destruct (bindHopData (drv w1) !! i) as [h|] eqn:Hhop; [|discriminate].
  injection H3 as <- <-.
  apply bind_done in H as ([] & w4 & H4 & H). injection H4 as <-.
  exists h. split; [by rewrite <- Hd1|].
  assert (Hrest : omap f (radio w') =
                  omap f (radio w1 ++ [EvWriteReg CC2500_0A_CHANNR h])).
  { remember (mkWorld (drv w1)
                (radio w1 ++ [EvWriteReg
                   (u8 (Z.lor CC2500_0A_CHANNR CC2500_WRITE_SINGLE)) h])
                (timers w1)) as w5 eqn:Hw5.
    apply bind_done in H as ([] & w6 & H6 & H). apply silent_Strobe in H6.
    apply bind_done in H as ([] & w7 & H7 & H). apply silent_delay_ms in H7.
    apply bind_done in H as (c0 & w8 & H8 & H). apply silent_ReadReg in H8.
    apply bind_done in H as (c1 & w9 & H9 & H). apply silent_ReadReg in H9.
    apply bind_done in H as (c2 & w10 & H10 & H). apply silent_ReadReg in H10.
    apply silent_modify_drv in H.
    rewrite H, H10, H9, H8, H7, H6, Hw5. reflexivity. }
  by rewrite Hrest, omap_app, E1.
Qed.

Lemma calibrate_loop_air chip l : forall w w',
  for_each l (calibrate_body chip) w = Done tt w' ->
  (forall i, i ∈ l -> (i < length (bindHopData (drv w)))%nat) /\
  omap f (radio w') =
  omap f (radio w) ++
  omap f (EvWriteReg CC2500_0A_CHANNR <$>
          ((fun i => default 0 (bindHopData (drv w) !! i)) <$> l)).
Proof.
  induction l as [|i l IH]; intros w w' H; cbn [for_each] in H.
  - injection H as <-. split; [by intros i Hi; apply elem_of_nil in Hi|].
    cbn. by rewrite app_nil_r.
  - apply bind_done in H as ([] & w1 & H1 & H).
    pose proof (calibrate_body_air chip i w w1 H1) as (hop & Hhop & Hair).
    apply calibrate_body_done in H1 as (_ & row & Hd1).
    apply IH in H as [Hin Hrest].
    assert (Htab : bindHopData (drv w1) = bindHopData (drv w))
      by (rewrite Hd1; cbn [bindHopData set_calData]; reflexivity).
    rewrite Htab in Hin, Hrest. split.
    + intros j Hj. apply elem_of_cons in Hj as [-> | Hj]; [|by apply Hin].
      by apply lookup_lt_Some in Hhop.
    + rewrite Hrest, Hair, <- app_assoc. f_equal.
      rewrite !fmap_cons, Hhop. cbn [default from_option].
      symmetry. exact (omap_app f [EvWriteReg CC2500_0A_CHANNR hop] _).
Qed.

End Silent.

Lemma lookup_all_slots (l : list Z) :
  (fun i => default 0 (l !! i)) <$> seq 0 (length l) = l.
Proof.
  apply list_eq. intros i. rewrite list_lookup_fmap.
  destruct (decide (i < length l)%nat) as [Hi | Hi].
  - rewrite lookup_seq_lt by done. cbn.
    destruct (lookup_lt_is_Some_2 l i Hi) as [x ->]. done.
  - rewrite lookup_seq_ge by lia. cbn. symmetry. apply lookup_ge_None. lia.
Qed.

Section BringupTraffic.
Context {B : Type} (f : event -> option B) (Hf : hears_air_only f).
Variable chip : list event -> Z -> Z.

Lemma radio_init_hw_air fuel w w' :
  drv w = power_on_driver ->
  radio_init_hw chip fuel w = Done tt w' ->
  omap f (radio w') =
  omap f (radio w) ++
  omap f (EvWriteReg CC2500_0A_CHANNR <$> bindHopData configured_driver).
Proof.
  intros Hd0 H. unfold radio_init_hw in H.
  apply bind_done in H as (? & w1 & H1 & H).
  apply quiet_wait_for_radio in H1 as Hq1. destruct Hq1 as [Hd1 _].
  apply (silent_wait_for_radio f Hf) in H1.
  apply bind_done in H as (? & w2 & H2 & H).
  apply quiet_Reset in H2 as Hq2. destruct Hq2 as [Hd2 _].
  apply (silent_Reset f Hf) in H2.
  apply bind_done in H as (? & w3 & H3 & H).
  apply quiet_for_each in H3 as Hq3; [|intros; apply quiet_emit].
  destruct Hq3 as [Hd3 _].
  apply (silent_radio_config f Hf) in H3.
  apply bind_done in H as (? & w4 & H4 & H).
  apply quiet_emit in H4 as Hq4. destruct Hq4 as [Hd4 _].
  apply (silent_Strobe f Hf) in H4.
  apply bind_done in H as (? & w5 & H5 & H).
  apply modify_drv_done in H5 as Hq5. destruct Hq5 as [Hd5 _].
  apply (silent_modify_drv f) in H5.
  apply bind_done in H as (? & w6 & H6 & H).
  apply modify_drv_done in H6 as Hq6. destruct Hq6 as [Hd6 _].
  apply (silent_modify_drv f) in H6.
  apply bind_done in H as (? & w7 & H7 & H).
  apply modify_drv_done in H7 as Hq7. destruct Hq7 as [Hd7 _].
  apply (silent_modify_drv f) in H7.
  assert (Hd7' : drv w7 = configured_driver).
  { rewrite Hd7, Hd6, Hd5, Hd4, Hd3, Hd2, Hd1, Hd0. reflexivity. }
  apply bind_done in H as ([] & w8 & H8 & H).
  apply (calibrate_loop_air f Hf) in H8 as [_ H8].
  apply bind_done in H as (? & w9 & H9 & H).
  apply (silent_delay_ms f Hf) in H9.
  apply bind_done in H as (? & w10 & H10 & H).
  apply (silent_Strobe f Hf) in H10.
  apply bind_done in H as (? & w11 & H11 & H).
  apply (silent_delay_ms f Hf) in H11.
  apply (silent_initialiseData f Hf) in H.
  assert (Hlen : length (bindHopData (drv w7)) = NUM_CHANNELS).
  { rewrite Hd7'. vm_compute. reflexivity. }
  pose proof (lookup_all_slots (bindHopData (drv w7))) as Hall.
  rewrite Hlen in Hall. rewrite Hall in H8.
  rewrite H, H11, H10, H9, H8, H7, H6, H5, H4, H3, H2, H1, Hd7'.
  reflexivity.
Qed.

Lemma radio_init_air fuel w w' :
  drv w = power_on_driver ->
  radio_init chip fuel w = Done tt w' ->
  omap f (radio w') =
  omap f (radio w) ++
  omap f (EvWriteReg CC2500_0A_CHANNR <$> bindHopData configured_driver).
Proof.
  intros Hd0 H. unfold radio_init in H.
  apply bind_done in H as (? & w1 & H1 & H).
  apply quiet_emit in H1 as Hq. destruct Hq as [Hd1 _].
  apply (silent_gpio_config f Hf) in H1.
  apply bind_done in H as (? & w2 & H2 & H).
  apply quiet_emit in H2 as Hq. destruct Hq as [Hd2 _].
  apply (silent_gpio_clear f Hf) in H2.
  apply bind_done in H as (? & w3 & H3 & H).
  apply quiet_emit in H3 as Hq. destruct Hq as [Hd3 _].
  apply (silent_gpio_config f Hf) in H3.
  apply bind_done in H as (? & w4 & H4 & H).
  apply quiet_emit in H4 as Hq. destruct Hq as [Hd4 _].
  apply (silent_gpio_clear f Hf) in H4.
  apply bind_done in H as (? & w5 & H5 & H).
  apply quiet_emit in H5 as Hq. destruct Hq as [Hd5 _].
  apply (silent_gpio_config f Hf) in H5.
  apply bind_done in H as (? & w6 & H6 & H).
  apply quiet_emit in H6 as Hq. destruct Hq as [Hd6 _].
  apply (silent_gpio_set f Hf) in H6.
  apply bind_done in H as (? & w7 & H7 & H).
  apply quiet_emit in H7 as Hq. destruct Hq as [Hd7 _].
  apply (silent_gpio_config f Hf) in H7.
  apply radio_init_hw_air in H; [|congruence].
  by rewrite H, H7, H6, H5, H4, H3, H2, H1.
Qed.

End BringupTraffic.

Lemma channr_writes_tune (l : list Z) :
  omap channr_write (EvWriteReg CC2500_0A_CHANNR <$> l) = l.
Proof. induction l as [|x l IH]; [done|]. cbn. by rewrite IH. Qed.

Lemma emitted_frames_tune (l : list Z) :
  emitted_frames (EvWriteReg CC2500_0A_CHANNR <$> l) = [].
Proof. induction l as [|x l IH]; [done|]. exact IH. Qed.

Lemma wait_for_radio_blocks chip fuel :
  never_identifies chip -> forall w, wait_for_radio chip fuel w = Stuck.
Proof.
  intros Hnever. induction fuel as [|fuel IH]; intros w; [done|].
  cbn [wait_for_radio]. unfold mbind, M_bind, cc2500_ReadReg.
  change (u8 (Z.lor (Z.lor CC2500_30_PARTNUM CC2500_READ_BURST)
                    CC2500_READ_SINGLE)) with 0xF0.
  change (u8 (Z.lor (Z.lor CC2500_31_VERSION CC2500_READ_BURST)
                    CC2500_READ_SINGLE)) with 0xF1.
  cbv zeta.
  destruct (Z.eqb_spec (u8 (chip (radio w) 0xF0)) 0x80) as [Hpart | Hpart];
    cbn [negb].
  - destruct Hnever as [Hnever | Hnever]; [by destruct (Hnever (radio w))|].
    match goal with
    | |- context [u8 (chip ?tr 0xF1) =? 3] =>
        destruct (Z.eqb_spec (u8 (chip tr 0xF1)) 3) as [Hver | Hver];
        [by destruct (Hnever tr)|]
    end.
    cbn [negb]. unfold delay_ms, emit. apply IH.
  - unfold delay_ms, emit. apply IH.
Qed.

(** X17. During bring-up the chip is tuned to every channel of the hopping
    table once, in slot order (the calibration visits), and then to the
    channel of slot 0 by [radio_start_send]; nothing is loaded into the TX
    FIFO before the first timer callback runs. *)
Theorem bringup_traffic chip fuel use_dsm2 w0 :
  boot chip fuel use_dsm2 power_on = Done tt w0 ->
  channr_writes (radio w0) =
    bindHopData (drv w0) ++ take 1 (bindHopData (drv w0)) /\
  emitted_frames (radio w0) = [].
Proof.
  intros H. unfold boot in H.
  apply bind_done in H as ([] & w1 & H1 & H).
  apply radio_init_done in H1 as Hq; [|reflexivity].
  destruct Hq as (_ & cal & Hd1 & _).
  pose proof (radio_init_air channr_write channr_write_air chip fuel
                power_on w1 eq_refl H1) as Htune.
  pose proof (radio_init_air fifo_frame fifo_frame_air chip fuel
                power_on w1 eq_refl H1) as Hfifo.
  rewrite channr_writes_tune in Htune.
  change (omap fifo_frame) with emitted_frames in Hfifo.
  rewrite emitted_frames_tune in Hfifo.
  unfold radio_start_send in H.
  apply bind_done in H as ([] & w2 & H2 & H).
  apply setChannel_done in H2 as (row & hop & _ & Hhop & ->).
  injection H as <-. cbn [radio drv].
  change (Z.to_nat 0) with 0%nat in Hhop.
  assert (Htab : bindHopData (drv w1) = bindHopData configured_driver)
    by (rewrite Hd1; cbn [bindHopData set_calData]; reflexivity).
  assert (Htake : take 1 (bindHopData (drv w1)) = [hop]).
  { destruct (bindHopData (drv w1)) as [|x l]; [discriminate|].
    by injection Hhop as ->. }
  split.
  - unfold channr_writes. rewrite omap_app. fold (omap channr_write (radio w1)).
    rewrite Htune, Htake, Htab. reflexivity.
  - unfold emitted_frames in *. rewrite omap_app, Hfifo. reflexivity.
Qed.

(** X18. A chip that never reports the part number and version of a CC2500
    keeps [radio_init] in its identity poll for ever: however many polls
    are allowed, it does not return, and it does not fault either. *)
Theorem radio_init_blocks chip :
  never_identifies chip -> forall fuel w, radio_init chip fuel w = Stuck.
Proof.
  intros Hnever fuel w. unfold radio_init, radio_init_hw.
  unfold mbind, M_bind, gpio_config, gpio_set, gpio_clear, emit.
  by rewrite wait_for_radio_blocks.
Qed.

Lemma radio_init_blocks_witness :
  radio_init (fun _ _ => 0) 1000 power_on = Stuck.
Proof.
  apply radio_init_blocks. left. intros tr. vm_compute. discriminate.
Defined.

Lemma bringup_traffic_witness :
  boot ready_chip 1 false power_on = Done tt booted_world /\
  emitted_frames (radio booted_world) = [].
Proof.
  split; [exact boot_ready|].
  exact (proj2 (bringup_traffic ready_chip 1 false booted_world boot_ready)).
Defined.
